(** * Food delivery application: booking lifecycle and OTP verification

    A shallow embedding of the Django views and helpers that move a booking
    through its statuses (core/models.py, core/helpers.py,
    administrator/views.py, delivery_partner/views.py, customer/views.py) and
    of the Redis-backed OTP manager (core/utils/otp_manager.py), followed by
    the properties of the specification proved or refuted on them. *)

From Stdlib Require Import ZArith String Ascii DecimalString.
From stdpp Require Import gmap strings list fin_maps.

Local Open Scope Z_scope.

(** ** Python strings and values *)

Module Py.

(** A Python [str] is modelled as a Rocq [string]; a character stands for
    the code point of the same number (code points below 256). *)

(** [str.isspace] on one character, for the code points below 256:
    TAB..CR, FS..US, SPACE, NEL and NBSP. *)
Definition isspace (c : ascii) : bool :=
  let n := Z.of_nat (nat_of_ascii c) in
  ((9 <=? n) && (n <=? 13)) || ((28 <=? n) && (n <=? 32))
  || (n =? 133) || (n =? 160).

Fixpoint lstrip (s : string) : string :=
  match s with
  | EmptyString => EmptyString
  | String c s' => if isspace c then lstrip s' else s
  end.

Definition rstrip (s : string) : string :=
  String.rev (lstrip (String.rev s)).

(** [s.strip()] *)
Definition strip (s : string) : string := rstrip (lstrip s).

(** [str(n)] for an [int]. *)
Definition str_int (n : Z) : string :=
  NilEmpty.string_of_int (Z.to_int n).

(** The values the OTP cache holds: [str], [int] and [bool]. *)
Inductive value : Type :=
| PStr (s : string)
| PInt (n : Z)
| PBool (b : bool).

(** Truth value of an object, as tested by [if x:] and [not x]. *)
Definition truthy (v : value) : bool :=
  match v with
  | PStr s => negb (String.eqb s "")
  | PInt n => negb (n =? 0)
  | PBool b => b
  end.

(** [str(v)] *)
Definition str (v : value) : string :=
  match v with
  | PStr s => s
  | PInt n => str_int n
  | PBool true => "True"
  | PBool false => "False"
  end.

(** The operand of an integer comparison or addition: [bool] is a subclass
    of [int]; a [str] operand raises [TypeError]. *)
Definition as_int (v : value) : option Z :=
  match v with
  | PStr _ => None
  | PInt n => Some n
  | PBool b => Some (Z.b2z b)
  end.

(** [x in l] for a list of strings. *)
Definition str_in (x : string) (l : list string) : bool :=
  existsb (String.eqb x) l.

(** The white space [int()] skips around a number: TAB..CR and SPACE, and,
    in a string that is not plain ASCII, NEL and NBSP. *)
Definition int_space (c : ascii) : bool :=
  let n := Z.of_nat (nat_of_ascii c) in
  ((9 <=? n) && (n <=? 13)) || (n =? 32) || (n =? 133) || (n =? 160).

Fixpoint skip_int_space (l : list ascii) : list ascii :=
  match l with
  | [] => []
  | c :: l' => if int_space c then skip_int_space l' else l
  end.

(** The default of [sys.get_int_max_str_digits()]: [int()] refuses a longer
    number with [ValueError]. *)
Definition MAX_STR_DIGITS : nat := 4300.

(** The digits of a number, which single underscores may separate;
    [after_digit] tells whether the character before was a digit and [count]
    how many digits were read. *)
Fixpoint int_digits (acc : Z) (count : nat) (after_digit : bool)
    (l : list ascii) : option Z :=
  match l with
  | [] =>
    if after_digit && (count <=? MAX_STR_DIGITS)%nat then Some acc else None
  | c :: l' =>
    let n := Z.of_nat (nat_of_ascii c) in
    if (48 <=? n) && (n <=? 57)
    then int_digits (10 * acc + (n - 48)) (S count) true l'
    else if Ascii.eqb c "_" && after_digit then int_digits acc count false l'
    else None
  end.

(** [int(s)] for a [str]: [None] stands for the [ValueError] it raises. *)
Definition parse_int (s : string) : option Z :=
  let l := rev (skip_int_space (rev (skip_int_space (list_ascii_of_string s)))) in
  match l with
  | c :: l' =>
    if Ascii.eqb c "+" then int_digits 0 0 false l'
    else if Ascii.eqb c "-" then Z.opp <$> int_digits 0 0 false l'
    else int_digits 0 0 false l
  | [] => None
  end.

End Py.

(** ** The expiring key-value store behind [caches['otp_cache']] *)

Module Cache.

(** An entry is a value with the absolute time at which it expires. *)
Abbreviation t := (gmap string (Py.value * Z)).

(** [cache.get(key)]: the value, unless the key is absent or expired.  The
    store serves an entry up to and including the instant at which it
    expires, and drops it after. *)
Definition get (now : Z) (k : string) (c : t) : option Py.value :=
  match c !! k with
  | Some (v, expiry) => if now <=? expiry then Some v else None
  | None => None
  end.

(** [cache.set(key, value, timeout=timeout)] *)
Definition set (now : Z) (k : string) (v : Py.value) (timeout : Z) (c : t) : t :=
  <[k := (v, now + timeout)]> c.

(** [cache.delete(key)] *)
Definition delete (k : string) (c : t) : t := base.delete k c.

(** [cache.ttl(key)]: seconds left, 0 for an absent or expired key. *)
Definition ttl (now : Z) (k : string) (c : t) : Z :=
  match c !! k with
  | Some (_, expiry) => if now <=? expiry then expiry - now else 0
  | None => 0
  end.

End Cache.

(** ** core/utils/otp_manager.py *)

Module OTPManager.

Definition OTP_LENGTH : nat := 4.
Definition OTP_EXPIRY : Z := 300.
Definition MAX_ATTEMPTS : Z := 3.
Definition STATIC_OTP : string := "1234".

Definition _get_otp_key (mobile_number : string) : string :=
  "otp:" +:+ mobile_number.
Definition _get_attempts_key (mobile_number : string) : string :=
  "otp_attempts:" +:+ mobile_number.
Definition _get_verified_key (mobile_number : string) : string :=
  "otp_verified:" +:+ mobile_number.

(** [string.digits] *)
Definition digits : list ascii :=
  ["0"; "1"; "2"; "3"; "4"; "5"; "6"; "7"; "8"; "9"]%char.

(** [''.join(random.choices(string.digits, k=k))]: the [i]-th character is
    the digit picked by the [i]-th draw of the random source [draws]. *)
Definition random_choices (draws : nat -> nat) (k : nat) : string :=
  string_of_list_ascii
    (List.map (fun i => nth (draws i mod 10)%nat digits "0"%char) (seq 0 k)).

Section Manager.
(** [settings.DEBUG] and the random source of the process. *)
Variable DEBUG : bool.
Variable draws : nat -> nat.

Definition generate_otp : string :=
  if DEBUG then STATIC_OTP else random_choices draws OTP_LENGTH.

Record create_result : Type := CreateResult {
  c_success : bool;
  c_otp : option string;
  c_message : string;
  c_expires_in : Z
}.

Definition create_otp (now : Z) (mobile_number : string) (cache : Cache.t)
  : create_result * Cache.t :=
  let existing_otp := Cache.get now (_get_otp_key mobile_number) cache in
  if from_option Py.truthy false existing_otp then
    (CreateResult false None
       "OTP already sent. Please wait before requesting a new one."
       (Cache.ttl now (_get_otp_key mobile_number) cache),
     cache)
  else
    let otp := generate_otp in
    let cache := Cache.set now (_get_otp_key mobile_number) (Py.PStr otp)
                   OTP_EXPIRY cache in
    let cache := Cache.delete (_get_attempts_key mobile_number) cache in
    let cache := Cache.delete (_get_verified_key mobile_number) cache in
    (CreateResult true (Some otp) "OTP generated successfully" OTP_EXPIRY,
     cache).
End Manager.

Record verify_result : Type := VerifyResult {
  v_success : bool;
  v_message : string;
  v_attempts_left : Z
}.

Definition NOT_FOUND : verify_result :=
  VerifyResult false "OTP expired or not found. Please request a new OTP." 0.
Definition MAX_EXCEEDED : verify_result :=
  VerifyResult false
    "Maximum verification attempts exceeded. Please request a new OTP." 0.
Definition VERIFIED : verify_result :=
  VerifyResult true "OTP verified successfully" MAX_ATTEMPTS.
Definition INVALID (attempts : Z) : verify_result :=
  VerifyResult false
    ("Invalid OTP. " +:+ Py.str_int (MAX_ATTEMPTS - attempts)
       +:+ " attempts remaining.")
    (MAX_ATTEMPTS - attempts).

(** [verify_otp] returns its dict and the cache it leaves; [None] stands for
    the [TypeError] raised when the attempts entry is not a number (the cache
    is untouched at that point). *)
Definition verify_otp (now : Z) (mobile_number otp : string) (cache : Cache.t)
  : option verify_result * Cache.t :=
  let stored_otp := Cache.get now (_get_otp_key mobile_number) cache in
  match stored_otp with
  | None => (Some NOT_FOUND, cache)
  | Some stored_otp =>
    if negb (Py.truthy stored_otp) then (Some NOT_FOUND, cache)
    else
      let attempts_key := _get_attempts_key mobile_number in
      let attempts := default (Py.PInt 0) (Cache.get now attempts_key cache) in
      match Py.as_int attempts with
      | None => (None, cache)
      | Some attempts =>
        if MAX_ATTEMPTS <=? attempts then
          let cache := Cache.delete (_get_otp_key mobile_number) cache in
          let cache := Cache.delete attempts_key cache in
          (Some MAX_EXCEEDED, cache)
        else if String.eqb (Py.strip otp) (Py.strip (Py.str stored_otp)) then
          let cache := Cache.set now (_get_verified_key mobile_number)
                         (Py.PBool true) 600 cache in
          let cache := Cache.delete (_get_otp_key mobile_number) cache in
          let cache := Cache.delete attempts_key cache in
          (Some VERIFIED, cache)
        else
          let attempts := attempts + 1 in
          let cache := Cache.set now attempts_key (Py.PInt attempts)
                         OTP_EXPIRY cache in
          (Some (INVALID attempts), cache)
      end
  end.

(** [is_verified]: [cache.get(key, False)] *)
Definition is_verified (now : Z) (mobile_number : string) (cache : Cache.t)
  : Py.value :=
  default (Py.PBool false) (Cache.get now (_get_verified_key mobile_number) cache).

Definition clear_verification (mobile_number : string) (cache : Cache.t)
  : Cache.t :=
  Cache.delete (_get_verified_key mobile_number) cache.

(** A run of [verify_otp] calls, each with its time and submitted code. *)
Fixpoint verify_all (calls : list (Z * string)) (mobile_number : string)
    (cache : Cache.t) : list (option verify_result) * Cache.t :=
  match calls with
  | [] => ([], cache)
  | (now, otp) :: calls =>
    let '(r, cache) := verify_otp now mobile_number otp cache in
    let '(rs, cache) := verify_all calls mobile_number cache in
    (r :: rs, cache)
  end.

End OTPManager.

(** ** core/models.py *)

Module User.
Record t : Type := Build {
  id : Z;
  mobile_number : string;
  first_name : option string;
  last_name : option string;
  role : string;
  is_active : bool;
  is_superuser : bool;
  (** effective permissions granted through groups and directly *)
  permissions : list string
}.

Definition nonempty (s : option string) : bool :=
  match s with
  | Some s => negb (String.eqb s "")
  | None => false
  end.

Definition get_full_name (self : t) : string :=
  if nonempty (first_name self) && nonempty (last_name self) then
    default "" (first_name self) +:+ " " +:+ default "" (last_name self)
  else mobile_number self.

(** [user.has_perm(perm)] of [django.contrib.auth]. *)
Definition has_perm (self : t) (perm : string) : bool :=
  is_active self && (is_superuser self || Py.str_in perm (permissions self)).
End User.

Module Booking.
Record t : Type := Build {
  customer_id : Z;
  delivery_partner_id : option Z;
  pickup_address : string;
  delivery_address : string;
  customer_notes : option string;
  status : string;
  created_at : Z;
  updated_at : Z;
  assigned_at : option Z;
  started_at : option Z;
  reached_at : option Z;
  collected_at : option Z;
  delivered_at : option Z;
  cancelled_at : option Z;
  cancellation_reason : option string
}.

Definition can_chat (self : t) : bool :=
  bool_decide (delivery_partner_id self ≠ None)
  && Py.str_in (status self) ["assigned"; "started"; "reached"; "collected"].

Definition set_delivery_partner (p : Z) (b : t) : t :=
  Build (customer_id b) (Some p) (pickup_address b) (delivery_address b)
    (customer_notes b) (status b) (created_at b) (updated_at b)
    (assigned_at b) (started_at b) (reached_at b) (collected_at b)
    (delivered_at b) (cancelled_at b) (cancellation_reason b).

Definition set_status (s : string) (b : t) : t :=
  Build (customer_id b) (delivery_partner_id b) (pickup_address b)
    (delivery_address b) (customer_notes b) s (created_at b) (updated_at b)
    (assigned_at b) (started_at b) (reached_at b) (collected_at b)
    (delivered_at b) (cancelled_at b) (cancellation_reason b).

Definition set_updated_at (now : Z) (b : t) : t :=
  Build (customer_id b) (delivery_partner_id b) (pickup_address b)
    (delivery_address b) (customer_notes b) (status b) (created_at b) now
    (assigned_at b) (started_at b) (reached_at b) (collected_at b)
    (delivered_at b) (cancelled_at b) (cancellation_reason b).

Definition set_assigned_at (now : Z) (b : t) : t :=
  Build (customer_id b) (delivery_partner_id b) (pickup_address b)
    (delivery_address b) (customer_notes b) (status b) (created_at b)
    (updated_at b) (Some now) (started_at b) (reached_at b) (collected_at b)
    (delivered_at b) (cancelled_at b) (cancellation_reason b).

Definition set_started_at (now : Z) (b : t) : t :=
  Build (customer_id b) (delivery_partner_id b) (pickup_address b)
    (delivery_address b) (customer_notes b) (status b) (created_at b)
    (updated_at b) (assigned_at b) (Some now) (reached_at b) (collected_at b)
    (delivered_at b) (cancelled_at b) (cancellation_reason b).

Definition set_reached_at (now : Z) (b : t) : t :=
  Build (customer_id b) (delivery_partner_id b) (pickup_address b)
    (delivery_address b) (customer_notes b) (status b) (created_at b)
    (updated_at b) (assigned_at b) (started_at b) (Some now) (collected_at b)
    (delivered_at b) (cancelled_at b) (cancellation_reason b).

Definition set_collected_at (now : Z) (b : t) : t :=
  Build (customer_id b) (delivery_partner_id b) (pickup_address b)
    (delivery_address b) (customer_notes b) (status b) (created_at b)
    (updated_at b) (assigned_at b) (started_at b) (reached_at b) (Some now)
    (delivered_at b) (cancelled_at b) (cancellation_reason b).

Definition set_delivered_at (now : Z) (b : t) : t :=
  Build (customer_id b) (delivery_partner_id b) (pickup_address b)
    (delivery_address b) (customer_notes b) (status b) (created_at b)
    (updated_at b) (assigned_at b) (started_at b) (reached_at b)
    (collected_at b) (Some now) (cancelled_at b) (cancellation_reason b).

Definition set_cancelled_at (now : Z) (b : t) : t :=
  Build (customer_id b) (delivery_partner_id b) (pickup_address b)
    (delivery_address b) (customer_notes b) (status b) (created_at b)
    (updated_at b) (assigned_at b) (started_at b) (reached_at b)
    (collected_at b) (delivered_at b) (Some now) (cancellation_reason b).

Definition set_cancellation_reason (r : string) (b : t) : t :=
  Build (customer_id b) (delivery_partner_id b) (pickup_address b)
    (delivery_address b) (customer_notes b) (status b) (created_at b)
    (updated_at b) (assigned_at b) (started_at b) (reached_at b)
    (collected_at b) (delivered_at b) (cancelled_at b) (Some r).
End Booking.

Module BookingStatusLog.
Record t : Type := Build {
  booking_id : Z;
  status : string;
  changed_by : option Z;
  notes : string;
  created_at : Z
}.
End BookingStatusLog.

Module ActivityLog.
(** The address and user agent taken from the request are not modelled. *)
Record t : Type := Build {
  user : option Z;
  action : string;
  description : string;
  created_at : Z
}.
End ActivityLog.

(** The tables the views read and write.  [status_logs] and [activity_logs]
    are kept in insertion order; [booking_seq] is the next primary key of the
    booking table. *)
Record DB : Type := BuildDB {
  users : gmap Z User.t;
  bookings : gmap Z Booking.t;
  booking_seq : Z;
  status_logs : list BookingStatusLog.t;
  activity_logs : list ActivityLog.t
}.

(** [request.user] *)
Inductive request_user : Type :=
| AnonymousUser
| Authenticated (u : User.t).

(** ** core/helpers.py *)

Module helpers.

Definition is_admin_user (user : request_user) : bool :=
  match user with
  | AnonymousUser => false
  | Authenticated u =>
    String.eqb (User.role u) "admin" || User.is_superuser u
  end.

Definition is_customer (user : request_user) : bool :=
  match user with
  | AnonymousUser => false
  | Authenticated u => String.eqb (User.role u) "customer"
  end.

Definition is_delivery_partner (user : request_user) : bool :=
  match user with
  | AnonymousUser => false
  | Authenticated u => String.eqb (User.role u) "delivery_partner"
  end.

(** [user.id], [None] for the anonymous user. *)
Definition pk (user : request_user) : option Z :=
  match user with
  | AnonymousUser => None
  | Authenticated u => Some (User.id u)
  end.

Definition can_access_booking (user : request_user) (booking : Booking.t) : bool :=
  if is_admin_user user then true
  else if is_customer user
          && bool_decide (Some (Booking.customer_id booking) = pk user) then true
  else if is_delivery_partner user
          && bool_decide (Booking.delivery_partner_id booking = pk user) then true
  else false.

Definition can_cancel_booking (user : request_user) (booking : Booking.t) : bool :=
  if negb (is_customer user)
     || bool_decide (Some (Booking.customer_id booking) ≠ pk user) then false
  else if Py.str_in (Booking.status booking) ["delivered"; "cancelled"] then false
  else true.

Definition can_update_booking_status (user : request_user) (booking : Booking.t)
  : bool :=
  if is_admin_user user then true
  else if is_delivery_partner user
          && bool_decide (Booking.delivery_partner_id booking = pk user) then true
  else false.

Definition get_next_booking_status (current_status : string) : option string :=
  if String.eqb current_status "pending" then Some "assigned"
  else if String.eqb current_status "assigned" then Some "started"
  else if String.eqb current_status "started" then Some "reached"
  else if String.eqb current_status "reached" then Some "collected"
  else if String.eqb current_status "collected" then Some "delivered"
  else None.

Definition log_activity (now : Z) (user : request_user) (action description : string)
    (db : DB) : DB :=
  BuildDB (users db) (bookings db) (booking_seq db) (status_logs db)
    (activity_logs db ++ [ActivityLog.Build (pk user) action description now]).

End helpers.

(** ** The views: customer/views.py, administrator/views.py,
       delivery_partner/views.py *)

Module views.

(** What a view answers: a flash message of level success or error followed
    by a redirect (or by the form again), a 404 from [get_object_or_404], the
    refusal of [PermissionRequiredMixin], or the answer to an exception that
    nothing catches (HTTP 500). *)
Inductive response : Type :=
| MessageSuccess (message : string)
| MessageError (message : string)
| Http404
| PermissionDenied
| RedirectToLogin
| ServerError.

(** [PermissionRequiredMixin.dispatch]: the handler runs only for a user
    holding [permission_required]; an authenticated user without it gets
    403, an anonymous one is sent to the login page. *)
Definition dispatch (permission_required : string) (user : request_user)
    (post : User.t -> DB -> response * DB) (db : DB) : response * DB :=
  match user with
  | AnonymousUser => (RedirectToLogin, db)
  | Authenticated u =>
    if User.has_perm u permission_required then post u db
    else (PermissionDenied, db)
  end.

(** [booking.save()]: writes the row, [updated_at] being [auto_now]. *)
Definition save (now : Z) (booking_id : Z) (booking : Booking.t) (db : DB) : DB :=
  BuildDB (users db)
    (<[booking_id := Booking.set_updated_at now booking]> (bookings db))
    (booking_seq db) (status_logs db) (activity_logs db).

(** [BookingStatusLog.objects.create(...)] *)
Definition create_status_log (now : Z) (booking_id : Z) (status : string)
    (changed_by : User.t) (notes : string) (db : DB) : DB :=
  BuildDB (users db) (bookings db) (booking_seq db)
    (status_logs db
       ++ [BookingStatusLog.Build booking_id status (Some (User.id changed_by))
             notes now])
    (activity_logs db).

(** [request.POST.get(name, '').strip()] *)
Definition post_field (raw : option string) : string :=
  Py.strip (default "" raw).

(** *** customer/views.py: CreateBookingView *)
Definition CreateBookingView_post (now : Z)
    (pickup_address delivery_address customer_notes : option string)
    (user : User.t) (db : DB) : response * DB :=
  let pickup_address := post_field pickup_address in
  let delivery_address := post_field delivery_address in
  let customer_notes := post_field customer_notes in
  if String.eqb pickup_address "" || String.eqb delivery_address "" then
    (MessageError "Please provide both pickup and delivery addresses", db)
  else
    let booking_id := booking_seq db in
    let booking :=
      Booking.Build (User.id user) None pickup_address delivery_address
        (Some customer_notes) "pending" now now None None None None None None
        None in
    let db := BuildDB (users db) (<[booking_id := booking]> (bookings db))
                (booking_seq db + 1) (status_logs db) (activity_logs db) in
    let db := create_status_log now booking_id "pending" user "Booking created" db in
    let db := helpers.log_activity now (Authenticated user) "Create Booking"
                ("Created booking #" +:+ Py.str_int booking_id) db in
    (MessageSuccess "Booking created successfully!", db).

Definition CreateBookingView (now : Z)
    (pickup_address delivery_address customer_notes : option string)
    (user : request_user) (db : DB) : response * DB :=
  dispatch "core.add_booking" user
    (CreateBookingView_post now pickup_address delivery_address customer_notes) db.

(** *** customer/views.py: CancelBookingView *)
Definition CancelBookingView_post (now : Z) (booking_id : Z)
    (cancellation_reason : option string) (user : User.t) (db : DB)
  : response * DB :=
  match bookings db !! booking_id with
  | None => (Http404, db)
  | Some booking =>
    if negb (helpers.can_cancel_booking (Authenticated user) booking) then
      (MessageError "You cannot cancel this booking", db)
    else
      let cancellation_reason := post_field cancellation_reason in
      let booking := Booking.set_status "cancelled" booking in
      let booking := Booking.set_cancelled_at now booking in
      let booking := Booking.set_cancellation_reason cancellation_reason booking in
      let db := save now booking_id booking db in
      let db := create_status_log now booking_id "cancelled" user
                  cancellation_reason db in
      let db := helpers.log_activity now (Authenticated user) "Cancel Booking"
                  ("Cancelled booking #" +:+ Py.str_int booking_id) db in
      (MessageSuccess "Booking cancelled successfully", db)
  end.

Definition CancelBookingView (now : Z) (booking_id : Z)
    (cancellation_reason : option string) (user : request_user) (db : DB)
  : response * DB :=
  dispatch "core.change_booking" user
    (CancelBookingView_post now booking_id cancellation_reason) db.

(** The row looked up by
    [get_object_or_404(User, id=delivery_partner_id, role='delivery_partner')],
    [None] when it raises [Http404]. *)
Definition get_delivery_partner (db : DB) (delivery_partner_id : Z)
  : option User.t :=
  match users db !! delivery_partner_id with
  | Some u =>
    if String.eqb (User.role u) "delivery_partner" then Some u else None
  | None => None
  end.

(** *** administrator/views.py: AssignBookingView

    [delivery_partner_id] is the posted field as it comes,
    [request.POST.get('delivery_partner_id')].  The lookup of the partner
    turns it into a number; when that fails, [ValueError] leaves the view,
    since [get_object_or_404] only catches [DoesNotExist]. *)
Definition AssignBookingView_post (now : Z) (booking_id : Z)
    (delivery_partner_id : option string) (user : User.t) (db : DB)
  : response * DB :=
  match bookings db !! booking_id with
  | None => (Http404, db)
  | Some booking =>
    (* if not delivery_partner_id *)
    if negb (User.nonempty delivery_partner_id) then
      (MessageError "Please select a delivery partner", db)
    else
      match Py.parse_int (default "" delivery_partner_id) with
      | None => (ServerError, db)
      | Some delivery_partner_id =>
        match get_delivery_partner db delivery_partner_id with
        | None => (Http404, db)
        | Some delivery_partner =>
          let booking := Booking.set_delivery_partner delivery_partner_id booking in
          let booking := Booking.set_status "assigned" booking in
          let booking := Booking.set_assigned_at now booking in
          let db := save now booking_id booking db in
          let db := create_status_log now booking_id "assigned" user
                      ("Assigned to " +:+ User.get_full_name delivery_partner) db in
          let db := helpers.log_activity now (Authenticated user) "Assign Booking"
                      ("Assigned booking #" +:+ Py.str_int booking_id +:+ " to "
                         +:+ User.mobile_number delivery_partner) db in
          (MessageSuccess
             ("Booking assigned to " +:+ User.get_full_name delivery_partner), db)
        end
      end
  end.

Definition AssignBookingView (now : Z) (booking_id : Z)
    (delivery_partner_id : option string) (user : request_user) (db : DB)
  : response * DB :=
  dispatch "core.change_booking" user
    (AssignBookingView_post now booking_id delivery_partner_id) db.

(** *** delivery_partner/views.py: UpdateBookingStatusView *)
Definition valid_statuses : list string :=
  ["started"; "reached"; "collected"; "delivered"].

Definition stamp (now : Z) (new_status : string) (booking : Booking.t)
  : Booking.t :=
  if String.eqb new_status "started" then Booking.set_started_at now booking
  else if String.eqb new_status "reached" then Booking.set_reached_at now booking
  else if String.eqb new_status "collected" then Booking.set_collected_at now booking
  else if String.eqb new_status "delivered" then Booking.set_delivered_at now booking
  else booking.

Definition UpdateBookingStatusView_post (now : Z) (booking_id : Z)
    (status notes : option string) (user : User.t) (db : DB)
  : response * DB :=
  match bookings db !! booking_id with
  | None => (Http404, db)
  | Some booking =>
    if negb (helpers.can_update_booking_status (Authenticated user) booking) then
      (MessageError "You cannot update this booking status", db)
    else
      let new_status := post_field status in
      let notes := post_field notes in
      if negb (Py.str_in new_status valid_statuses) then
        (MessageError "Invalid status", db)
      else
        let booking := Booking.set_status new_status booking in
        let booking := stamp now new_status booking in
        let db := save now booking_id booking db in
        let db := create_status_log now booking_id new_status user notes db in
        let db := helpers.log_activity now (Authenticated user)
                    "Update Booking Status"
                    ("Updated booking #" +:+ Py.str_int booking_id +:+ " to "
                       +:+ new_status) db in
        (MessageSuccess ("Booking status updated to " +:+ new_status), db)
  end.

Definition UpdateBookingStatusView (now : Z) (booking_id : Z)
    (status notes : option string) (user : request_user) (db : DB)
  : response * DB :=
  dispatch "core.change_booking" user
    (UpdateBookingStatusView_post now booking_id status notes) db.

(** A request succeeded when it ends with a success message. *)
Definition succeeded (r : response) : bool :=
  match r with
  | MessageSuccess _ => true
  | _ => false
  end.

End views.

(** ** Vocabulary of the statements and sample data *)

(** The attempts counter [verify_otp] reads: 0 for an absent or expired entry,
    [None] when the entry is not a number. *)
Definition attempts_recorded (now : Z) (mobile_number : string) (cache : Cache.t)
  : option Z :=
  Py.as_int (default (Py.PInt 0)
               (Cache.get now (OTPManager._get_attempts_key mobile_number) cache)).

Definition sample_mobile : string := "+911234567890".

(** The cache after a code was issued at time 0 in a development set-up. *)
Definition sample_issued : Cache.t :=
  (OTPManager.create_otp true (fun _ => 0%nat) 0 sample_mobile ∅).2.

(** The same after three wrong codes submitted at times 1, 2 and 3. *)
Definition sample_three_wrong : Cache.t :=
  (OTPManager.verify_all [(1, "0000"); (2, "1111"); (3, "4321")]
     sample_mobile sample_issued).2.

(** The timestamp field that belongs to a status of the delivery pipeline. *)
Definition transition_timestamp (status : string) (b : Booking.t) : option Z :=
  if String.eqb status "started" then Booking.started_at b
  else if String.eqb status "reached" then Booking.reached_at b
  else if String.eqb status "collected" then Booking.collected_at b
  else if String.eqb status "delivered" then Booking.delivered_at b
  else None.

(** A terminal status. *)
Definition terminal (status : string) : bool :=
  Py.str_in status ["delivered"; "cancelled"].



Definition sample_perms : list string :=
  ["core.add_booking"; "core.change_booking"; "core.view_booking"].

Definition sample_customer : User.t :=
  User.Build 1 "+911111111111" (Some "Asha") (Some "Rao") "customer" true false
    sample_perms.
Definition sample_partner : User.t :=
  User.Build 2 "+912222222222" None None "delivery_partner" true false
    sample_perms.
Definition sample_admin : User.t :=
  User.Build 3 "+admin_0123456789" (Some "Site") (Some "Admin") "admin" true true [].
Definition sample_other_customer : User.t :=
  User.Build 4 "+914444444444" None None "customer" true false sample_perms.
Definition sample_retired_partner : User.t :=
  User.Build 5 "+915555555555" None None "delivery_partner" false false
    sample_perms.

Definition sample_users : gmap Z User.t :=
  <[1 := sample_customer]> (<[2 := sample_partner]> (<[3 := sample_admin]>
    (<[4 := sample_other_customer]> (<[5 := sample_retired_partner]> ∅)))).

Definition sample_db_empty : DB := BuildDB sample_users ∅ 1 [] [].

(** Booking 1 as the customer creates it at time 100 ... *)
Definition sample_db_pending : DB :=
  (views.CreateBookingView 100 (Some "12 Hill Road") (Some " 4 Lake View ") None
     (Authenticated sample_customer) sample_db_empty).2.

(** ... as the administrator assigns it to the partner at time 110 ... *)
Definition sample_db_assigned : DB :=
  (views.AssignBookingView 110 1 (Some "2") (Authenticated sample_admin)
     sample_db_pending).2.

(** ... as the partner starts it at time 120 ... *)
Definition sample_db_started : DB :=
  (views.UpdateBookingStatusView 120 1 (Some "started") None
     (Authenticated sample_partner) sample_db_assigned).2.

(** ... as the partner delivers it at time 150 ... *)
Definition sample_db_delivered : DB :=
  (views.UpdateBookingStatusView 150 1 (Some "delivered") (Some "left at door")
     (Authenticated sample_partner) sample_db_started).2.

(** ... or as the customer cancels it at time 130 instead. *)
Definition sample_db_cancelled : DB :=
  (views.CancelBookingView 130 1 (Some "changed my mind")
     (Authenticated sample_customer) sample_db_started).2.

(** The row of booking 1 in [sample_db_pending] and in [sample_db_started]. *)
Definition sample_booking_pending : Booking.t :=
  Booking.Build 1 None "12 Hill Road" "4 Lake View" (Some "") "pending"
    100 100 None None None None None None None.

Definition sample_booking_started : Booking.t :=
  Booking.Build 1 (Some 2) "12 Hill Road" "4 Lake View" (Some "") "started"
    100 120 (Some 110) (Some 120) None None None None None.

(** The status of a booking in the database. *)
Definition status_of (db : DB) (booking_id : Z) : option string :=
  Booking.status <$> bookings db !! booking_id.

(** ** core/utils/otp_manager.py: get_otp_status *)

Module OTPStatus.

Record t : Type := Build {
  exists_ : bool;
  verified : Py.value;
  attempts : Py.value;
  expires_in : Z
}.

Definition get_otp_status (now : Z) (mobile_number : string) (cache : Cache.t) : t :=
  let otp_key := OTPManager._get_otp_key mobile_number in
  let exists_ := bool_decide (Cache.get now otp_key cache ≠ None) in
  let verified := OTPManager.is_verified now mobile_number cache in
  let attempts :=
    default (Py.PInt 0)
      (Cache.get now (OTPManager._get_attempts_key mobile_number) cache) in
  let expires_in := if exists_ then Cache.ttl now otp_key cache else 0 in
  Build exists_ verified attempts expires_in.

End OTPStatus.

(** The cache keys that belong to a mobile number. *)
Definition keys_of (mobile_number : string) : list string :=
  [OTPManager._get_otp_key mobile_number;
   OTPManager._get_attempts_key mobile_number;
   OTPManager._get_verified_key mobile_number].

(** The cache a successful [create_otp] leaves. *)
Definition issued (DEBUG : bool) (draws : nat -> nat) (now : Z)
    (mobile_number : string) (cache : Cache.t) : Cache.t :=
  Cache.delete (OTPManager._get_verified_key mobile_number)
    (Cache.delete (OTPManager._get_attempts_key mobile_number)
       (Cache.set now (OTPManager._get_otp_key mobile_number)
          (Py.PStr (OTPManager.generate_otp DEBUG draws))
          OTPManager.OTP_EXPIRY cache)).

(** What a request on booking [booking_id] does to the status log: when it
    succeeds, one entry is appended, for that booking and with the status the
    booking now has; when it does not, nothing at all has changed. *)
Definition logged_once (db : DB) (res : views.response * DB) (booking_id : Z)
  : Prop :=
  if views.succeeded res.1 then
    exists e,
      status_logs res.2 = status_logs db ++ [e]
      /\ BookingStatusLog.booking_id e = booking_id
      /\ Some (BookingStatusLog.status e) = status_of res.2 booking_id
  else res.2 = db.

(** The part of a booking that the customer wrote when creating it. *)
Definition request_data (b : Booking.t) : Z * string * string * option string * Z :=
  (Booking.customer_id b, Booking.pickup_address b, Booking.delivery_address b,
   Booking.customer_notes b, Booking.created_at b).

(** A request on booking [booking_id] keeps the users, every other booking,
    and the customer's part of the booking itself. *)
Definition keeps_rest (db db' : DB) (booking_id : Z) : Prop :=
  users db' = users db
  /\ booking_seq db' = booking_seq db
  /\ (forall id, id ≠ booking_id -> bookings db' !! id = bookings db !! id)
  /\ (request_data <$> bookings db' !! booking_id)
     = (request_data <$> bookings db !! booking_id).

(** Every booking has a primary key below the next one to be given out. *)
Definition ids_below_seq (db : DB) : Prop :=
  forall id, is_Some (bookings db !! id) -> id < booking_seq db.

(** ** core/validators.py *)

Module validators.

(** [\d] on one character (the decimal digits among the code points below
    256 are 0 to 9). *)
Definition is_digit (c : ascii) : bool :=
  let n := Z.of_nat (nat_of_ascii c) in (48 <=? n) && (n <=? 57).

(** [[a-zA-Z]] *)
Definition is_letter (c : ascii) : bool :=
  let n := Z.of_nat (nat_of_ascii c) in
  ((65 <=? n) && (n <=? 90)) || ((97 <=? n) && (n <=? 122)).

Fixpoint all_chars (p : ascii -> bool) (s : string) : bool :=
  match s with
  | EmptyString => true
  | String c s' => p c && all_chars p s'
  end.

Fixpoint filter_chars (p : ascii -> bool) (s : string) : string :=
  match s with
  | EmptyString => EmptyString
  | String c s' => if p c then String c (filter_chars p s') else filter_chars p s'
  end.

(** The string without its last character when that is a line feed. *)
Fixpoint before_final_newline (s : string) : option string :=
  match s with
  | EmptyString => None
  | String c EmptyString => if Ascii.eqb c "010" then Some EmptyString else None
  | String c s' => String c <$> before_final_newline s'
  end.

Definition digits_between (lo hi : nat) (s : string) : bool :=
  all_chars is_digit s && (lo <=? String.length s)%nat && (String.length s <=? hi)%nat.

(** [re.match(r'^\d{lo,hi}$', s)]: between [lo] and [hi] digits up to the end
    of the string, or up to a line feed that ends the string. *)
Definition match_digits (lo hi : nat) (s : string) : bool :=
  digits_between lo hi s
  || from_option (digits_between lo hi) false (before_final_newline s).

(** An entry of [COUNTRY_CODES]; [pattern] [(lo, hi)] stands for the regular
    expression [^\d{lo,hi}$].  The flag, which only templates show, is left
    out. *)
Record country : Type := Country {
  code : string;
  name : string;
  pattern : nat * nat;
  placeholder : string
}.

Definition COUNTRY_CODES : list country :=
  [Country "+1" "United States/Canada" (10, 10)%nat "2025551234";
   Country "+44" "United Kingdom" (10, 10)%nat "7911123456";
   Country "+91" "India" (10, 10)%nat "9876543210";
   Country "+86" "China" (11, 11)%nat "13812345678";
   Country "+81" "Japan" (10, 10)%nat "9012345678";
   Country "+49" "Germany" (10, 11)%nat "15112345678";
   Country "+33" "France" (9, 9)%nat "612345678";
   Country "+61" "Australia" (9, 9)%nat "412345678";
   Country "+7" "Russia" (10, 10)%nat "9123456789";
   Country "+55" "Brazil" (11, 11)%nat "11987654321";
   Country "+52" "Mexico" (10, 10)%nat "5512345678";
   Country "+34" "Spain" (9, 9)%nat "612345678";
   Country "+39" "Italy" (10, 10)%nat "3123456789";
   Country "+82" "South Korea" (10, 10)%nat "1012345678";
   Country "+65" "Singapore" (8, 8)%nat "81234567";
   Country "+60" "Malaysia" (9, 10)%nat "123456789";
   Country "+66" "Thailand" (9, 9)%nat "812345678";
   Country "+63" "Philippines" (10, 10)%nat "9171234567";
   Country "+62" "Indonesia" (10, 12)%nat "81234567890";
   Country "+84" "Vietnam" (9, 10)%nat "912345678";
   Country "+971" "UAE" (9, 9)%nat "501234567";
   Country "+966" "Saudi Arabia" (9, 9)%nat "501234567";
   Country "+27" "South Africa" (9, 9)%nat "712345678";
   Country "+234" "Nigeria" (10, 10)%nat "8012345678";
   Country "+20" "Egypt" (10, 10)%nat "1001234567"].

Definition DEFAULT_COUNTRY_CODE : string := "+91".

Definition get_country_code_data (country_code : string) : option country :=
  List.find (fun cc => String.eqb (code cc) country_code) COUNTRY_CODES.

Record mobile_result : Type := MobileResult {
  m_valid : bool;
  m_message : string;
  full_number : option string
}.

Definition validate_mobile_number (country_code mobile_number : string)
  : mobile_result :=
  (* re.sub(r'[^\d]', '', mobile_number) *)
  let mobile_number := filter_chars is_digit mobile_number in
  if String.eqb mobile_number "" then
    MobileResult false "Mobile number is required" None
  else
    match get_country_code_data country_code with
    | None => MobileResult false "Invalid country code" None
    | Some cc_data =>
      if negb (match_digits (pattern cc_data).1 (pattern cc_data).2 mobile_number)
      then
        MobileResult false
          ("Invalid mobile number format for " +:+ name cc_data +:+ ". Example: "
             +:+ placeholder cc_data) None
      else
        MobileResult true "Valid mobile number"
          (Some (country_code +:+ mobile_number))
    end.

Record result : Type := Result {
  valid : bool;
  message : string
}.

Definition validate_otp (otp : string) : result :=
  if String.eqb otp "" then Result false "OTP is required"
  else
    let otp := Py.strip otp in
    if negb (match_digits 4 4 otp) then
      Result false "OTP must be exactly 4 digits"
    else Result true "Valid OTP format".

(** [str.lower] on one character, for the code points below 256. *)
Definition lower_char (c : ascii) : ascii :=
  let n := nat_of_ascii c in
  if ((65 <=? n) && (n <=? 90) || (192 <=? n) && (n <=? 214)
      || (216 <=? n) && (n <=? 222))%nat
  then ascii_of_nat (n + 32) else c.

Fixpoint lower (s : string) : string :=
  match s with
  | EmptyString => EmptyString
  | String c s' => String (lower_char c) (lower s')
  end.

(** A character of the class [[a-zA-Z\s\-']]. *)
Definition is_name_char (c : ascii) : bool :=
  is_letter c || Py.isspace c || Ascii.eqb c "-" || Ascii.eqb c "'".

Definition validate_name (name field_name : string) : result :=
  if String.eqb name "" then Result false (field_name +:+ " is required")
  else
    let name := Py.strip name in
    if (String.length name <? 2)%nat then
      Result false (field_name +:+ " must be at least 2 characters")
    else if (150 <? String.length name)%nat then
      Result false (field_name +:+ " must be less than 150 characters")
    (* re.match(r"^[a-zA-Z\s\-']+$", name) *)
    else if negb (negb (String.eqb name "") && all_chars is_name_char name) then
      Result false
        (field_name
           +:+ " can only contain letters, spaces, hyphens, and apostrophes")
    else Result true ("Valid " +:+ lower field_name).

End validators.

(** [lstrip] on a list of characters. *)
Fixpoint drop_spaces (l : list ascii) : list ascii :=
  match l with
  | [] => []
  | c :: l' => if Py.isspace c then drop_spaces l' else l
  end.

(** A posted field that is missing or holds white space only. *)
Definition blank (raw : option string) : bool :=
  forallb Py.isspace (list_ascii_of_string (default "" raw)).

(** ** Chat: core/models.py (ChatMessage), the chat and detail views, and
       core/consumers.py *)

Module ChatMessage.
Record t : Type := Build {
  id : Z;
  booking_id : Z;
  sender_id : Z;
  receiver_id : Z;
  message : string;
  is_read : bool;
  created_at : Z
}.

Definition set_is_read (r : bool) (m : t) : t :=
  Build (id m) (booking_id m) (sender_id m) (receiver_id m) (message m) r
    (created_at m).
End ChatMessage.

(** The chat message table, in insertion order (which is the order of
    [created_at]), with the next primary key. *)
Record ChatDB : Type := BuildChatDB {
  chat_messages : list ChatMessage.t;
  chat_seq : Z
}.

Module chat.

(** The rows selected by
    [ChatMessage.objects.filter(booking=..., receiver=..., is_read=False)]. *)
Definition unread_for (booking_id receiver : Z) (m : ChatMessage.t) : bool :=
  (ChatMessage.booking_id m =? booking_id)
  && (ChatMessage.receiver_id m =? receiver)
  && negb (ChatMessage.is_read m).

(** [... .update(is_read=True)] *)
Definition mark_read (booking_id receiver : Z) (c : ChatDB) : ChatDB :=
  BuildChatDB
    (List.map (fun m => if unread_for booking_id receiver m
                        then ChatMessage.set_is_read true m else m)
       (chat_messages c))
    (chat_seq c).

(** [... .count()] *)
Definition unread_count (booking_id receiver : Z) (c : ChatDB) : nat :=
  length (List.filter (unread_for booking_id receiver) (chat_messages c)).

(** [booking.chat_messages.all().order_by('created_at')] *)
Definition booking_messages (booking_id : Z) (c : ChatDB) : list ChatMessage.t :=
  List.filter (fun m => ChatMessage.booking_id m =? booking_id) (chat_messages c).

(** What a page view answers: the page, or a refusal. *)
Inductive page (A : Type) : Type :=
| Page (content : A)
| Refused (r : views.response).
Arguments Page {A} content.
Arguments Refused {A} r.

(** [PermissionRequiredMixin.dispatch] in front of a [get] handler. *)
Definition dispatch_get {A : Type} (permission_required : string) (user : request_user)
    (get : User.t -> page A * ChatDB) (c : ChatDB) : page A * ChatDB :=
  match user with
  | AnonymousUser => (Refused views.RedirectToLogin, c)
  | Authenticated u =>
    if User.has_perm u permission_required then get u
    else (Refused views.PermissionDenied, c)
  end.

(** The context of the chat room template.  The message query set is read
    when the template is rendered, after the update. *)
Record chat_room : Type := ChatRoom {
  room_messages : list ChatMessage.t;
  other_user : option Z
}.

(** The two [ChatView]s differ in the participant they show as the other
    one: the delivery partner for the customer's view, the customer for the
    delivery partner's. *)
Inductive app : Type := customer_app | delivery_partner_app.

Definition ChatView (side : app) (booking_id : Z) (user : request_user) (db : DB)
    (c : ChatDB) : page chat_room * ChatDB :=
  match bookings db !! booking_id with
  | None => (Refused views.Http404, c)
  | Some booking =>
    if negb (helpers.can_access_booking user booking) then
      (Refused (views.MessageError "Access denied"), c)
    else if negb (Booking.can_chat booking) then
      (Refused (views.MessageError "Chat is not available for this booking"), c)
    else
      dispatch_get "core.view_chatmessage" user
        (fun u =>
           let c := mark_read booking_id (User.id u) c in
           let other_user :=
             match side with
             | customer_app => Booking.delivery_partner_id booking
             | delivery_partner_app => Some (Booking.customer_id booking)
             end in
           (Page (ChatRoom (booking_messages booking_id c) other_user), c))
        c
  end.

(** The context of the booking detail templates; [may_change] is
    [can_cancel] on the customer's page and [can_update_status] on the
    delivery partner's. *)
Record booking_detail : Type := BookingDetail {
  detail_booking : Booking.t;
  detail_status_logs : list BookingStatusLog.t;
  detail_chat_messages : list ChatMessage.t;
  may_change : bool
}.

(** customer/views.py [ViewBookingView] and delivery_partner/views.py
    [ViewDeliveryView]; the status log is shown latest first. *)
Definition ViewBookingView (side : app) (booking_id : Z) (user : request_user)
    (db : DB) (c : ChatDB) : page booking_detail * ChatDB :=
  match bookings db !! booking_id with
  | None => (Refused views.Http404, c)
  | Some booking =>
    if negb (helpers.can_access_booking user booking) then
      (Refused (views.MessageError
                  match side with
                  | customer_app => "Access denied to this booking"
                  | delivery_partner_app => "Access denied"
                  end), c)
    else
      dispatch_get "core.view_booking" user
        (fun u =>
           let status_logs :=
             rev (List.filter
                    (fun l => BookingStatusLog.booking_id l =? booking_id)
                    (status_logs db)) in
           let c' := if Booking.can_chat booking
                     then mark_read booking_id (User.id u) c else c in
           let chat_messages := if Booking.can_chat booking
                                then booking_messages booking_id c' else [] in
           let may_change :=
             match side with
             | customer_app => helpers.can_cancel_booking user booking
             | delivery_partner_app =>
               helpers.can_update_booking_status user booking
             end in
           (Page (BookingDetail booking status_logs chat_messages may_change), c'))
        c
  end.

(** [GetUnreadMessagesCountAPIView.get]: the count, or [None] for the 403
    answer; [Refused] covers the 404 and the permission gate. *)
Definition GetUnreadMessagesCountAPIView (booking_id : Z) (user : request_user)
    (db : DB) (c : ChatDB) : page (option nat) :=
  (dispatch_get "core.view_chatmessage" user
     (fun u =>
        match bookings db !! booking_id with
        | None => (Refused views.Http404, c)
        | Some booking =>
          if negb (helpers.can_access_booking user booking) then (Page None, c)
          else (Page (Some (unread_count booking_id (User.id u) c)), c)
        end) c).1.

End chat.

Module consumers.

(** [ChatConsumer.verify_booking_access], for the authenticated user [user]
    of the connection. *)
Definition verify_booking_access (user : User.t) (booking_id : Z) (db : DB) : bool :=
  match bookings db !! booking_id with
  | Some booking =>
    if (User.id user =? Booking.customer_id booking)
       || bool_decide (Some (User.id user) = Booking.delivery_partner_id booking)
    then true
    else if String.eqb (User.role user) "admin" then true
    else false
  | None => false
  end.

(** [ChatConsumer.save_message]: the row created, or [None] when the booking
    or the receiver is missing (the exception is caught and [None]
    returned). *)
Definition save_message (now : Z) (user : User.t) (booking_id : Z)
    (message : string) (db : DB) (c : ChatDB) : option ChatMessage.t * ChatDB :=
  match bookings db !! booking_id with
  | None => (None, c)
  | Some booking =>
    let receiver :=
      if User.id user =? Booking.customer_id booking
      then Booking.delivery_partner_id booking ≫= (fun p => users db !! p)
      else users db !! Booking.customer_id booking in
    match receiver with
    | None => (None, c)
    | Some receiver =>
      let chat_message :=
        ChatMessage.Build (chat_seq c) booking_id (User.id user) (User.id receiver)
          message false now in
      (Some chat_message,
       BuildChatDB (chat_messages c ++ [chat_message]) (chat_seq c + 1))
    end
  end.

(** The event sent to the room group. *)
Record event : Type := Event {
  e_message : string;
  e_sender_id : Z;
  e_sender_name : string;
  e_timestamp : Z;
  e_message_id : Z
}.

(** [ChatConsumer.receive], given the value of ['message'] in the decoded
    frame ([''] when the key is absent); the event is what [group_send]
    hands to the room, [None] when the handler returns or fails before. *)
Definition receive (now : Z) (user : User.t) (booking_id : Z) (message : string)
    (db : DB) (c : ChatDB) : option event * ChatDB :=
  if String.eqb (Py.strip message) "" then (None, c)
  else
    match save_message now user booking_id message db c with
    | (Some chat_message, c') =>
      (Some (Event message (User.id user) (User.get_full_name user)
               (ChatMessage.created_at chat_message) (ChatMessage.id chat_message)),
       c')
    | (None, c') => (None, c')
    end.

End consumers.

(** The customer and the partner of the samples, as users who may also view
    chat messages. *)
Definition sample_chat_customer : User.t :=
  User.Build 1 "+911111111111" (Some "Asha") (Some "Rao") "customer" true false
    ("core.view_chatmessage" :: sample_perms).
Definition sample_chat_partner : User.t :=
  User.Build 2 "+912222222222" None None "delivery_partner" true false
    ("core.view_chatmessage" :: sample_perms).

(** Two chat messages on booking 1 of [sample_db_started]: the partner
    writes at time 123, the customer answers at time 125. *)
Definition sample_chat : ChatDB :=
  (consumers.receive 125 sample_customer 1 "Where are you?" sample_db_started
     (consumers.receive 123 sample_partner 1 " On my way " sample_db_started
        (BuildChatDB [] 1)).2).2.

(** ** core/validators.py: sanitize_input *)

Module sanitizer.

(** [re.sub(pattern, '', s)] for a pattern that never matches the empty
    string: [match_len s] is the length of the match of the pattern at the
    start of [s], if there is one.  The scan goes from left to right, drops a
    match and goes on behind it, keeps the character where there is none. *)
Fixpoint sub_go (match_len : string -> option nat) (skip : nat) (s : string)
  : string :=
  match s with
  | EmptyString => EmptyString
  | String c s' =>
    match skip with
    | S k => sub_go match_len k s'
    | O =>
      match match_len s with
      | Some (S n) => sub_go match_len n s'
      | _ => String c (sub_go match_len 0 s')
      end
    end
  end.

Definition re_sub (match_len : string -> option nat) (s : string) : string :=
  sub_go match_len 0 s.

(** The position of the first [>] of [s]. *)
Fixpoint index_gt (s : string) : option nat :=
  match s with
  | EmptyString => None
  | String c s' => if Ascii.eqb c ">" then Some 0%nat else S <$> index_gt s'
  end.

Fixpoint drop_chars (n : nat) (s : string) : string :=
  match n, s with
  | S n, String _ s' => drop_chars n s'
  | _, _ => s
  end.

(** [s] starts with [p], letter case ignored ([p] is in lower case). *)
Fixpoint starts_with_ci (p s : string) : bool :=
  match p, s with
  | EmptyString, _ => true
  | String a p', String c s' =>
    Ascii.eqb (validators.lower_char c) a && starts_with_ci p' s'
  | String _ _, EmptyString => false
  end.

(** The position of the first occurrence of [p] in [s], letter case
    ignored. *)
Fixpoint find_ci (p s : string) : option nat :=
  if starts_with_ci p s then Some 0%nat
  else match s with
       | EmptyString => None
       | String _ s' => S <$> find_ci p s'
       end.

(** [<[^>]*>]: a [<] and everything up to the next [>]. *)
Definition tag_match (s : string) : option nat :=
  match s with
  | String c s' => if Ascii.eqb c "<" then (fun i => i + 2)%nat <$> index_gt s' else None
  | EmptyString => None
  end.

(** [<script[^>]*>.*?</script>] with [re.DOTALL | re.IGNORECASE]: the opening
    tag up to its [>], then everything up to the first closing tag. *)
Definition script_match (s : string) : option nat :=
  if starts_with_ci "<script" s then
    let rest := drop_chars 7 s in
    match index_gt rest with
    | Some i =>
      match find_ci "</script>" (drop_chars (S i) rest) with
      | Some j => Some (7 + S i + j + 9)%nat
      | None => None
      end
    | None => None
    end
  else None.

Definition sanitize_input (value : string) : string :=
  if String.eqb value "" then ""
  else
    let value := Py.strip value in
    let value := re_sub tag_match value in
    let value := re_sub script_match value in
    value.

(** [s] contains a [>]. *)
Definition has_gt (s : string) : bool := bool_decide (index_gt s ≠ None).

(** No [<] of [s] is followed, anywhere behind it, by a [>]. *)
Fixpoint no_tag (s : string) : bool :=
  match s with
  | EmptyString => true
  | String c s' => (negb (Ascii.eqb c "<") || negb (has_gt s')) && no_tag s'
  end.

End sanitizer.

(** ** core/views.py: LoginView *)

Module auth.

(** [User.objects.get(mobile_number=...)] *)
Inductive get_result : Type :=
| Found (u : User.t)
| DoesNotExist
| MultipleObjectsReturned.

Definition get_user (db : DB) (mobile_number : string) : get_result :=
  match List.filter (fun u => String.eqb (User.mobile_number u) mobile_number)
          (map_to_list (users db)).*2 with
  | [] => DoesNotExist
  | [u] => Found u
  | _ => MultipleObjectsReturned
  end.

Inductive level : Type := success | error.

(** What the login view answers: the login template with a flash message
    and the keyword arguments of [render_template]; the redirect to the
    dashboard after [login(request, user)]; or an exception that nothing
    catches. *)
Inductive response : Type :=
| Render (flash_level : level) (flash : string) (context : list (string * string))
| RedirectDashboard (flash : string) (logged_in : User.t)
| ServerError.

Section Settings.
Variable DEBUG : bool.
Variable draws : nat -> nat.

Definition handle_send_otp (now : Z) (country_code mobile_number role : string)
    (db : DB) (cache : Cache.t) : response * Cache.t :=
  let validation_result := validators.validate_mobile_number country_code mobile_number in
  if negb (validators.m_valid validation_result) then
    (Render error (validators.m_message validation_result)
       [("selected_country_code", country_code)], cache)
  else
    (* a valid result always carries the full number *)
    let full_number := default "" (validators.full_number validation_result) in
    match get_user db full_number with
    | DoesNotExist =>
      (Render error "Account not found. Please sign up first."
         [("selected_country_code", country_code)], cache)
    | MultipleObjectsReturned => (ServerError, cache)
    | Found user =>
      let '(result, cache) := OTPManager.create_otp DEBUG draws now full_number cache in
      if OTPManager.c_success result then
        (Render success ("OTP sent to " +:+ full_number +:+ ". Use 1234 to login.")
           [("step", "verify_otp"); ("mobile_number", full_number); ("role", role);
            ("selected_country_code", country_code)], cache)
      else
        (Render error (OTPManager.c_message result)
           [("selected_country_code", country_code)], cache)
    end.

End Settings.

Definition handle_verify_otp (now : Z) (mobile_number otp role country_code : string)
    (db : DB) (cache : Cache.t) : response * Cache.t * DB :=
  let context := [("step", "verify_otp"); ("mobile_number", mobile_number);
                  ("role", role); ("selected_country_code", country_code)] in
  let otp_validation := validators.validate_otp otp in
  if negb (validators.valid otp_validation) then
    (Render error (validators.message otp_validation) context, cache, db)
  else
    match OTPManager.verify_otp now mobile_number otp cache with
    | (None, cache) => (ServerError, cache, db)
    | (Some result, cache) =>
      if OTPManager.v_success result then
        match get_user db mobile_number with
        | Found user =>
          (RedirectDashboard "Login successful!" user, cache,
           helpers.log_activity now (Authenticated user) "Login" "User logged in" db)
        | DoesNotExist =>
          (Render error "Account not found. Please sign up first."
             [("selected_country_code", country_code)], cache, db)
        | MultipleObjectsReturned => (ServerError, cache, db)
        end
      else (Render error (OTPManager.v_message result) context, cache, db)
    end.

End auth.

(** * Properties *)

(** ** The cache *)

Section CacheFacts.
Implicit Types (c : Cache.t) (k : string) (v : Py.value).

Lemma get_absent now k c : c !! k = None -> Cache.get now k c = None.
Proof. unfold Cache.get. by intros ->. Qed.

Lemma get_delete_eq now k c : Cache.get now k (Cache.delete k c) = None.
Proof. apply get_absent, lookup_delete_eq. Qed.

Lemma get_delete_ne now k k' c :
  k ≠ k' -> Cache.get now k' (Cache.delete k c) = Cache.get now k' c.
Proof. intros Hne. unfold Cache.get, Cache.delete. by rewrite lookup_delete_ne. Qed.

Lemma get_set_eq now t k v timeout c :
  Cache.get t k (Cache.set now k v timeout c)
  = if t <=? now + timeout then Some v else None.
Proof. unfold Cache.get, Cache.set. by rewrite lookup_insert_eq. Qed.

Lemma get_set_ne now t k k' v timeout c :
  k ≠ k' -> Cache.get t k' (Cache.set now k v timeout c) = Cache.get t k' c.
Proof. intros Hne. unfold Cache.get, Cache.set. by rewrite lookup_insert_ne. Qed.
End CacheFacts.

(** ** The OTP manager *)

Section OTPFacts.
Import OTPManager.
Implicit Types (c : Cache.t) (m otp : string).

(** The three key families never collide. *)
Lemma otp_key_ne_attempts m m' : _get_otp_key m ≠ _get_attempts_key m'.
Proof. intros H. cbv in H. congruence. Qed.

Lemma otp_key_ne_verified m m' : _get_otp_key m ≠ _get_verified_key m'.
Proof. intros H. cbv in H. congruence. Qed.

Lemma attempts_key_ne_verified m m' : _get_attempts_key m ≠ _get_verified_key m'.
Proof. intros H. cbv in H. congruence. Qed.

Lemma otp_key_inj m m' : _get_otp_key m = _get_otp_key m' -> m = m'.
Proof. intros H. cbv in H. congruence. Qed.

(** Without a stored code every verification answers "expired or not found"
    and leaves the cache as it is. *)
Lemma verify_otp_no_code now m otp c :
  c !! _get_otp_key m = None -> verify_otp now m otp c = (Some NOT_FOUND, c).
Proof. intros H. unfold verify_otp. by rewrite (get_absent _ _ _ H). Qed.

Lemma verify_all_no_code calls m c :
  c !! _get_otp_key m = None ->
  verify_all calls m c = (List.map (fun _ => Some NOT_FOUND) calls, c).
Proof.
  intros H. induction calls as [|[now otp] calls IH]; simpl; [done|].
  by rewrite verify_otp_no_code, IH.
Qed.

(** What the lock-out branch leaves behind. *)
Lemma locked_out_cache m c :
  let c' := Cache.delete (_get_attempts_key m) (Cache.delete (_get_otp_key m) c) in
  c' !! _get_otp_key m = None /\ c' !! _get_attempts_key m = None.
Proof.
  simpl. unfold Cache.delete. split.
  - rewrite lookup_delete_ne by (apply not_eq_sym, otp_key_ne_attempts).
    apply lookup_delete_eq.
  - apply lookup_delete_eq.
Qed.

(** Only the lock-out branch answers [MAX_EXCEEDED]. *)
Lemma verify_otp_max_exceeded_inv now m otp c c' :
  verify_otp now m otp c = (Some MAX_EXCEEDED, c') ->
  c' = Cache.delete (_get_attempts_key m) (Cache.delete (_get_otp_key m) c).
Proof.
  unfold verify_otp.
  destruct (Cache.get now (_get_otp_key m) c) as [v|]; [|discriminate].
  destruct (Py.truthy v); simpl; [|discriminate].
  destruct (Py.as_int _) as [n|]; [|discriminate].
  destruct (MAX_ATTEMPTS <=? n); [congruence|].
  destruct (String.eqb _ _); [discriminate|].
  intros H. cbv [INVALID MAX_EXCEEDED String.append] in H. discriminate.
Qed.

(** A fresh or expired number gets a code. *)
Lemma create_otp_no_code DEBUG draws now m c :
  c !! _get_otp_key m = None ->
  c_success (create_otp DEBUG draws now m c).1 = true.
Proof. intros H. unfold create_otp. by rewrite (get_absent _ _ _ H). Qed.

(** In production the code is the four digits drawn. *)
Lemma generate_otp_production draws :
  generate_otp false draws
  = string_of_list_ascii
      [nth (draws 0 mod 10) digits "0"; nth (draws 1 mod 10) digits "0";
       nth (draws 2 mod 10) digits "0"; nth (draws 3 mod 10) digits "0"]%nat%char.
Proof. reflexivity. Qed.

Lemma nth_digits_is_digit n :
  (48 <= nat_of_ascii (nth (n mod 10) digits "0"%char) <= 57)%nat.
Proof.
  assert (n mod 10 < 10)%nat as H by (apply Nat.mod_upper_bound; lia).
  generalize dependent (n mod 10)%nat. intros k Hk.
  do 10 (destruct k as [|k]; [vm_compute; lia|]). lia.
Qed.

(** C10.  When [verify_otp] answers "maximum verification attempts
    exceeded" it has deleted the code and the attempts entries of the number:
    the next [verify_otp] for the number answers "expired or not found", and
    the next [create_otp] succeeds rather than answering "already sent". *)
Theorem verify_otp_max_exceeded_clears now m otp c c' :
  verify_otp now m otp c = (Some MAX_EXCEEDED, c') ->
  c' !! _get_otp_key m = None
  /\ c' !! _get_attempts_key m = None
  /\ (forall now' otp', verify_otp now' m otp' c' = (Some NOT_FOUND, c'))
  /\ (forall DEBUG draws now',
        c_success (create_otp DEBUG draws now' m c').1 = true
        /\ c_otp (create_otp DEBUG draws now' m c').1
           = Some (generate_otp DEBUG draws)).
Proof.
  intros H. apply verify_otp_max_exceeded_inv in H. subst c'.
  destruct (locked_out_cache m c) as [Hc Ha]. simpl in Hc, Ha.
  repeat split; try done.
  - intros. by apply verify_otp_no_code.
  - by apply create_otp_no_code.
  - unfold create_otp. by rewrite (get_absent _ _ _ Hc).
Qed.

(** A wrong code is counted: the attempts entry becomes one more, with a
    fresh 300 second expiry, and the code stays. *)
Lemma verify_otp_wrong_code now m otp c v n :
  Cache.get now (_get_otp_key m) c = Some v ->
  Py.truthy v = true ->
  attempts_recorded now m c = Some n ->
  n < MAX_ATTEMPTS ->
  Py.strip otp ≠ Py.strip (Py.str v) ->
  verify_otp now m otp c
  = (Some (INVALID (n + 1)),
     Cache.set now (_get_attempts_key m) (Py.PInt (n + 1)) OTP_EXPIRY c).
Proof.
  intros Hv Ht Ha Hn Hne. unfold attempts_recorded in Ha.
  unfold verify_otp. rewrite Hv, Ht. cbn [negb]. rewrite Ha.
  destruct (Z.leb_spec MAX_ATTEMPTS n); [lia|].
  by destruct (String.eqb_spec (Py.strip otp) (Py.strip (Py.str v))).
Qed.

(** A number without code or attempts entry gets a code that verifies. *)
Lemma issued_code_verifies DEBUG draws now m c :
  c !! _get_otp_key m = None ->
  (verify_otp now m (generate_otp DEBUG draws)
     (create_otp DEBUG draws now m c).2).1 = Some VERIFIED.
Proof.
  intros H. unfold create_otp. rewrite (get_absent _ _ _ H). cbn [from_option snd].
  unfold verify_otp.
  rewrite !get_delete_ne, get_set_eq
    by first [apply not_eq_sym, otp_key_ne_verified
             |apply not_eq_sym, otp_key_ne_attempts].
  destruct (Z.leb_spec now (now + OTP_EXPIRY)) as [_|Hlt];
    [|unfold OTP_EXPIRY in Hlt; lia].
  assert (Py.truthy (Py.PStr (generate_otp DEBUG draws)) = true) as ->
    by (destruct DEBUG; reflexivity).
  cbn [negb].
  rewrite get_delete_ne by apply not_eq_sym, attempts_key_ne_verified.
  rewrite get_delete_eq. cbn [default Py.as_int Py.str].
  by rewrite String.eqb_refl.
Qed.

(** C5.  With a live code and an attempts counter that has reached 3,
    [verify_otp] answers "maximum verification attempts exceeded" whatever
    code is submitted, the right one included; no later [verify_otp]
    succeeds, whatever is submitted and whenever, as long as no new code is
    issued; and the code issued by the next [create_otp] verifies again. *)
Theorem verify_otp_locked_out now m c v n :
  Cache.get now (_get_otp_key m) c = Some v ->
  Py.truthy v = true ->
  Cache.get now (_get_attempts_key m) c = Some (Py.PInt n) ->
  MAX_ATTEMPTS <= n ->
  forall otp, exists c',
    verify_otp now m otp c = (Some MAX_EXCEEDED, c')
    /\ (forall calls,
          Forall (fun r => exists r', r = Some r' /\ v_success r' = false)
            (verify_all calls m c').1)
    /\ (forall DEBUG draws now',
          (verify_otp now' m (generate_otp DEBUG draws)
             (create_otp DEBUG draws now' m c').2).1 = Some VERIFIED).
Proof.
  intros Hv Ht Ha Hn otp. eexists. split; [|split].
  - unfold verify_otp. rewrite Hv, Ht, Ha. simpl.
    destruct (Z.leb_spec MAX_ATTEMPTS n); [reflexivity|lia].
  - intros calls. destruct (locked_out_cache m c) as [Hc _]. simpl in Hc.
    rewrite (verify_all_no_code _ _ _ Hc). simpl.
    apply Forall_forall. intros r Hr. apply list_elem_of_In, in_map_iff in Hr.
    destruct Hr as (_ & <- & _). by exists NOT_FOUND.
  - intros. apply issued_code_verifies. apply (locked_out_cache m c).
Qed.

End OTPFacts.

Section OTPClaims.
Import OTPManager.
Implicit Types (c : Cache.t) (m otp : string).

Example sample_three_wrong_state :
  Cache.get 4 (_get_otp_key sample_mobile) sample_three_wrong = Some (Py.PStr "1234")
  /\ Cache.get 4 (_get_attempts_key sample_mobile) sample_three_wrong
     = Some (Py.PInt 3).
Proof. split; vm_compute; reflexivity. Qed.

Lemma verify_otp_max_exceeded_clears_witness :
  let c' := (verify_otp 4 sample_mobile "1234" sample_three_wrong).2 in
  c' !! _get_otp_key sample_mobile = None
  /\ c' !! _get_attempts_key sample_mobile = None
  /\ (forall now' otp', verify_otp now' sample_mobile otp' c' = (Some NOT_FOUND, c'))
  /\ (forall DEBUG draws now',
        c_success (create_otp DEBUG draws now' sample_mobile c').1 = true
        /\ c_otp (create_otp DEBUG draws now' sample_mobile c').1
           = Some (generate_otp DEBUG draws)).
Proof.
  apply (verify_otp_max_exceeded_clears 4 sample_mobile "1234" sample_three_wrong).
  vm_compute. reflexivity.
Defined.

Lemma verify_otp_locked_out_witness :
  exists c',
    verify_otp 4 sample_mobile "1234" sample_three_wrong = (Some MAX_EXCEEDED, c')
    /\ (forall calls,
          Forall (fun r => exists r', r = Some r' /\ v_success r' = false)
            (verify_all calls sample_mobile c').1)
    /\ (forall DEBUG draws now',
          (verify_otp now' sample_mobile (generate_otp DEBUG draws)
             (create_otp DEBUG draws now' sample_mobile c').2).1 = Some VERIFIED).
Proof.
  apply (verify_otp_locked_out 4 sample_mobile sample_three_wrong (Py.PStr "1234") 3).
  - vm_compute. reflexivity.
  - reflexivity.
  - vm_compute. reflexivity.
  - vm_compute. discriminate.
Defined.

(** C6 as worded fails: a live code and a matching submission do not give
    success once three wrong codes have been recorded. *)
Lemma verify_otp_matching_code_refused :
  Cache.get 4 (_get_otp_key sample_mobile) sample_three_wrong = Some (Py.PStr "1234")
  /\ Py.strip "1234" = Py.strip (Py.str (Py.PStr "1234"))
  /\ (verify_otp 4 sample_mobile "1234" sample_three_wrong).1 = Some MAX_EXCEEDED
  /\ v_success MAX_EXCEEDED = false.
Proof. repeat split; vm_compute; reflexivity. Qed.

(** C6, amended.  With a live code and fewer than 3 recorded attempts,
    [verify_otp] with a submission equal to the stored code after trimming
    both returns success, stores the verified flag with a 600 second expiry
    and deletes the code and attempts entries; a replay of the same
    submission then answers "expired or not found". *)
Theorem verify_otp_correct_code now m otp c v n :
  Cache.get now (_get_otp_key m) c = Some v ->
  Py.truthy v = true ->
  attempts_recorded now m c = Some n ->
  n < MAX_ATTEMPTS ->
  Py.strip otp = Py.strip (Py.str v) ->
  exists c',
    verify_otp now m otp c = (Some VERIFIED, c')
    /\ v_success VERIFIED = true
    /\ c' !! _get_verified_key m = Some (Py.PBool true, now + 600)
    /\ c' !! _get_otp_key m = None
    /\ c' !! _get_attempts_key m = None
    /\ forall now', verify_otp now' m otp c' = (Some NOT_FOUND, c').
Proof.
  intros Hv Ht Ha Hn Heq. unfold attempts_recorded in Ha.
  eexists. split; [|split; [reflexivity|]].
  - unfold verify_otp. rewrite Hv, Ht. simpl. rewrite Ha.
    destruct (Z.leb_spec MAX_ATTEMPTS n); [lia|].
    rewrite Heq, String.eqb_refl. reflexivity.
  - assert (Hk : Cache.delete (_get_attempts_key m)
                   (Cache.delete (_get_otp_key m)
                      (Cache.set now (_get_verified_key m) (Py.PBool true) 600 c))
                 !! _get_otp_key m = None).
    { unfold Cache.delete.
      rewrite lookup_delete_ne by (apply not_eq_sym, otp_key_ne_attempts).
      apply lookup_delete_eq. }
    repeat split.
    + unfold Cache.delete, Cache.set.
      rewrite lookup_delete_ne by apply attempts_key_ne_verified.
      rewrite lookup_delete_ne by apply otp_key_ne_verified.
      apply lookup_insert_eq.
    + exact Hk.
    + apply lookup_delete_eq.
    + intros now'. by apply verify_otp_no_code.
Qed.

Lemma verify_otp_correct_code_witness :
  exists c',
    verify_otp 7 sample_mobile " 1234 " sample_issued = (Some VERIFIED, c')
    /\ v_success VERIFIED = true
    /\ c' !! _get_verified_key sample_mobile = Some (Py.PBool true, 7 + 600)
    /\ c' !! _get_otp_key sample_mobile = None
    /\ c' !! _get_attempts_key sample_mobile = None
    /\ forall now', verify_otp now' sample_mobile " 1234 " c' = (Some NOT_FOUND, c').
Proof.
  apply (verify_otp_correct_code 7 sample_mobile " 1234 " sample_issued
           (Py.PStr "1234") 0).
  - vm_compute. reflexivity.
  - reflexivity.
  - vm_compute. reflexivity.
  - vm_compute. reflexivity.
  - vm_compute. reflexivity.
Defined.

(** C7 as worded fails: in a development set-up ([DEBUG] on) the code does
    not come from the random source; two sources that draw 7777 and 8888
    both give 1234. *)
Lemma create_otp_debug_not_random :
  random_choices (fun _ => 7%nat) OTP_LENGTH = "7777"
  /\ random_choices (fun _ => 8%nat) OTP_LENGTH = "8888"
  /\ c_otp (create_otp true (fun _ => 7%nat) 0 sample_mobile ∅).1 = Some "1234"
  /\ c_otp (create_otp true (fun _ => 8%nat) 0 sample_mobile ∅).1 = Some "1234".
Proof. repeat split; vm_compute; reflexivity. Qed.

(** C7, amended.  In a development set-up ([DEBUG] on), [create_otp] for a
    number without a live code returns the fixed 4-digit code 1234, whatever
    the random source, and stores it with a time-to-live of 300 seconds: it
    is read back at time [t] exactly when [t <= now + 300], the instant of
    expiry included. *)
Theorem create_otp_debug_static draws now m c :
  from_option Py.truthy false (Cache.get now (_get_otp_key m) c) = false ->
  exists c',
    create_otp true draws now m c
    = (CreateResult true (Some "1234") "OTP generated successfully" 300, c')
    /\ String.length "1234" = OTP_LENGTH
    /\ c' !! _get_otp_key m = Some (Py.PStr "1234", now + 300)
    /\ Cache.ttl now (_get_otp_key m) c' = 300
    /\ forall t, Cache.get t (_get_otp_key m) c'
                 = if t <=? now + 300 then Some (Py.PStr "1234") else None.
Proof.
  intros H. eexists. split; [|split; [reflexivity|]].
  - unfold create_otp. rewrite H. reflexivity.
  - assert (Hk : Cache.delete (_get_verified_key m)
                   (Cache.delete (_get_attempts_key m)
                      (Cache.set now (_get_otp_key m)
                         (Py.PStr (generate_otp true draws)) OTP_EXPIRY c))
                 !! _get_otp_key m = Some (Py.PStr "1234", now + 300)).
    { unfold Cache.delete, Cache.set.
      rewrite lookup_delete_ne by (apply not_eq_sym, otp_key_ne_verified).
      rewrite lookup_delete_ne by (apply not_eq_sym, otp_key_ne_attempts).
      apply lookup_insert_eq. }
    repeat split.
    + exact Hk.
    + unfold Cache.ttl. rewrite Hk.
      destruct (Z.leb_spec now (now + 300)); lia.
    + intros t. unfold Cache.get. by rewrite Hk.
Qed.

Lemma create_otp_debug_static_witness :
  exists c',
    create_otp true (fun i => (3 * i + 5)%nat) 0 sample_mobile ∅
    = (CreateResult true (Some "1234") "OTP generated successfully" 300, c')
    /\ String.length "1234" = OTP_LENGTH
    /\ c' !! _get_otp_key sample_mobile = Some (Py.PStr "1234", 0 + 300)
    /\ Cache.ttl 0 (_get_otp_key sample_mobile) c' = 300
    /\ forall t, Cache.get t (_get_otp_key sample_mobile) c'
                 = if t <=? 0 + 300 then Some (Py.PStr "1234") else None.
Proof.
  apply (create_otp_debug_static (fun i => (3 * i + 5)%nat) 0 sample_mobile ∅).
  vm_compute. reflexivity.
Defined.

End OTPClaims.

(** ** The booking lifecycle *)

Section BookingFacts.
Import views.

Lemma str_in_spec x l : Py.str_in x l = true <-> In x l.
Proof.
  unfold Py.str_in. rewrite existsb_exists. split.
  - intros (y & Hy & Heq). apply String.eqb_eq in Heq. by subst.
  - intros H. exists x. split; [done|apply String.eqb_refl].
Qed.

Lemma str_in_false x l : Py.str_in x l = false <-> ~ In x l.
Proof. rewrite <- str_in_spec. destruct (Py.str_in x l); intuition congruence. Qed.

(** Who may move a booking along: an administrator, or the delivery
    partner the booking is assigned to. *)
Lemma can_update_booking_status_spec u b :
  helpers.can_update_booking_status (Authenticated u) b = true
  <-> (User.role u = "admin" \/ User.is_superuser u = true)
      \/ (User.role u = "delivery_partner"
          /\ Booking.delivery_partner_id b = Some (User.id u)).
Proof.
  unfold helpers.can_update_booking_status. simpl.
  destruct (String.eqb_spec (User.role u) "admin") as [Ha|Ha]; simpl.
  { tauto. }
  destruct (User.is_superuser u); simpl; [tauto|].
  destruct (String.eqb_spec (User.role u) "delivery_partner") as [Hd|Hd]; simpl.
  - case_bool_decide; intuition congruence.
  - intuition congruence.
Qed.

(** Someone else than the customer of the booking is never let through by
    [can_cancel_booking]. *)
Lemma can_cancel_booking_owner user b :
  helpers.can_cancel_booking user b = true ->
  helpers.pk user = Some (Booking.customer_id b).
Proof.
  unfold helpers.can_cancel_booking.
  destruct (helpers.is_customer user); simpl; [|done].
  case_bool_decide as H; [done|]. intros _. by destruct (decide (helpers.pk user = Some (Booking.customer_id b))) as [?|Hn]; [|destruct H; congruence].
Qed.

Lemma can_cancel_booking_not_terminal user b :
  helpers.can_cancel_booking user b = true -> terminal (Booking.status b) = false.
Proof.
  unfold helpers.can_cancel_booking, terminal.
  destruct (_ || _); [done|]. by destruct (Py.str_in _ _).
Qed.

(** C8.  [can_chat] holds exactly when a delivery partner is assigned and
    the status is assigned, started, reached or collected; it is false for a
    pending, a delivered and a cancelled booking. *)
Theorem can_chat_spec b :
  (Booking.can_chat b = true
   <-> Booking.delivery_partner_id b ≠ None
       /\ In (Booking.status b) ["assigned"; "started"; "reached"; "collected"])
  /\ Booking.can_chat (Booking.set_status "pending" b) = false
  /\ Booking.can_chat (Booking.set_status "delivered" b) = false
  /\ Booking.can_chat (Booking.set_status "cancelled" b) = false.
Proof.
  split.
  - unfold Booking.can_chat.
    rewrite andb_true_iff, bool_decide_eq_true, str_in_spec. done.
  - unfold Booking.can_chat. simpl.
    repeat split; apply andb_false_r.
Qed.

(** C9.  For a user who is not the customer of the booking,
    [CancelBookingView] refuses (login redirect for an anonymous user, 403
    without the change permission, the error message "You cannot cancel this
    booking" otherwise) and leaves every table as it was: status,
    [cancelled_at], [cancellation_reason] and the status log included. *)
Theorem cancel_by_other_user_refused now booking_id reason user db b :
  bookings db !! booking_id = Some b ->
  helpers.pk user ≠ Some (Booking.customer_id b) ->
  exists r,
    CancelBookingView now booking_id reason user db = (r, db)
    /\ succeeded r = false
    /\ (r = RedirectToLogin \/ r = PermissionDenied
        \/ r = MessageError "You cannot cancel this booking").
Proof.
  intros Hb Hne. unfold CancelBookingView, dispatch.
  destruct user as [|u]; [by eexists; eauto|].
  destruct (User.has_perm u _); [|by eexists; eauto].
  unfold CancelBookingView_post. rewrite Hb.
  destruct (helpers.can_cancel_booking (Authenticated u) b) eqn:Hc.
  - apply can_cancel_booking_owner in Hc. done.
  - simpl. eexists; eauto.
Qed.

Lemma cancel_by_other_user_refused_witness :
  exists r,
    CancelBookingView 140 1 (Some "not mine") (Authenticated sample_other_customer)
      sample_db_started = (r, sample_db_started)
    /\ succeeded r = false
    /\ (r = RedirectToLogin \/ r = PermissionDenied
        \/ r = MessageError "You cannot cancel this booking").
Proof.
  apply (cancel_by_other_user_refused 140 1 (Some "not mine")
           (Authenticated sample_other_customer) sample_db_started
           sample_booking_started).
  - vm_compute. reflexivity.
  - vm_compute. discriminate.
Defined.

(** A terminal booking cannot be cancelled (again). *)
Lemma cancel_terminal_refused now booking_id reason user db b :
  bookings db !! booking_id = Some b ->
  terminal (Booking.status b) = true ->
  exists r, CancelBookingView now booking_id reason user db = (r, db)
            /\ succeeded r = false.
Proof.
  intros Hb Ht. unfold CancelBookingView, dispatch.
  destruct user as [|u]; [by eexists|].
  destruct (User.has_perm u _); [|by eexists].
  unfold CancelBookingView_post. rewrite Hb.
  destruct (helpers.can_cancel_booking (Authenticated u) b) eqn:Hc.
  - apply can_cancel_booking_not_terminal in Hc. congruence.
  - by eexists.
Qed.

Lemma stamp_status now s b : Booking.status (stamp now s b) = Booking.status b.
Proof. unfold stamp. by repeat destruct (String.eqb _ _). Qed.


Lemma stamp_timestamp now now' s b :
  In s valid_statuses ->
  transition_timestamp s (Booking.set_updated_at now' (stamp now s b)) = Some now.
Proof.
  unfold valid_statuses. simpl.
  intros [<-|[<-|[<-|[<-|[]]]]]; reflexivity.
Qed.

(** C4 as worded fails: the view trims the posted target before it looks it
    up.  The target " collected ", spaces included, is none of started,
    reached, collected, delivered, yet the request of the assigned delivery
    partner is accepted; the status written is "collected", which is not the
    target as the caller supplied it. *)
Lemma update_status_padded_target_accepted :
  ~ In " collected " ["started"; "reached"; "collected"; "delivered"]
  /\ bookings sample_db_started !! 1 = Some sample_booking_started
  /\ helpers.can_update_booking_status (Authenticated sample_partner)
       sample_booking_started = true
  /\ succeeded (UpdateBookingStatusView 125 1 (Some " collected ")
                  (Some "picked up ") (Authenticated sample_partner)
                  sample_db_started).1 = true
  /\ status_of (UpdateBookingStatusView 125 1 (Some " collected ")
                  (Some "picked up ") (Authenticated sample_partner)
                  sample_db_started).2 1 = Some "collected"
  /\ "collected" <> " collected ".
Proof.
  split; [|repeat split; try (vm_compute; reflexivity); discriminate].
  intros [H|[H|[H|[H|[]]]]]; discriminate H.
Qed.

(** C4, amended.  For a user allowed to update the booking (an administrator
    or the assigned delivery partner, holding the change permission),
    [UpdateBookingStatusView] accepts the submitted target, read with its
    surrounding whitespace removed, exactly when the target so trimmed is one
    of started, reached, collected, delivered, whatever the current status;
    it then sets the status to the trimmed target, stamps the timestamp of
    that status and appends one log entry carrying the notes, trimmed too. *)
Theorem update_status_accepts_valid_target now booking_id status notes u db b :
  bookings db !! booking_id = Some b ->
  User.has_perm u "core.change_booking" = true ->
  helpers.can_update_booking_status (Authenticated u) b = true ->
  let target := post_field status in
  exists r db',
    UpdateBookingStatusView now booking_id status notes (Authenticated u) db
    = (r, db')
    /\ (succeeded r = true
        <-> In target ["started"; "reached"; "collected"; "delivered"])
    /\ (succeeded r = true ->
        exists b',
          bookings db' !! booking_id = Some b'
          /\ Booking.status b' = target
          /\ transition_timestamp target b' = Some now
          /\ status_logs db'
             = status_logs db
               ++ [BookingStatusLog.Build booking_id target (Some (User.id u))
                     (post_field notes) now])
    /\ (succeeded r = false -> r = MessageError "Invalid status" /\ db' = db).
Proof.
  intros Hb Hp Hc target.
  unfold UpdateBookingStatusView, dispatch. rewrite Hp.
  unfold UpdateBookingStatusView_post. rewrite Hb, Hc. cbv zeta. cbn [negb].
  fold target.
  destruct (Py.str_in target valid_statuses) eqn:Hin; cbn [negb].
  - apply str_in_spec in Hin.
    eexists _, _. split; [reflexivity|].
    split; [split; [intros _; exact Hin|reflexivity]|].
    split; [|discriminate].
    intros _. eexists. split; [apply lookup_insert_eq|].
    split; [|split; [by apply stamp_timestamp|reflexivity]].
    cbn. by rewrite stamp_status.
  - apply str_in_false in Hin.
    eexists _, _. split; [reflexivity|].
    split; [split; [discriminate|intros H; by destruct Hin]|].
    split; [discriminate|done].
Qed.

Lemma update_status_accepts_valid_target_witness :
  exists r db',
    UpdateBookingStatusView 125 1 (Some " collected ") (Some "picked up ")
      (Authenticated sample_partner) sample_db_started = (r, db')
    /\ (succeeded r = true
        <-> In (post_field (Some " collected "))
              ["started"; "reached"; "collected"; "delivered"])
    /\ (succeeded r = true ->
        exists b',
          bookings db' !! 1 = Some b'
          /\ Booking.status b' = post_field (Some " collected ")
          /\ transition_timestamp (post_field (Some " collected ")) b' = Some 125
          /\ status_logs db'
             = status_logs sample_db_started
               ++ [BookingStatusLog.Build 1 (post_field (Some " collected "))
                     (Some (User.id sample_partner))
                     (post_field (Some "picked up ")) 125])
    /\ (succeeded r = false -> r = MessageError "Invalid status"
                               /\ db' = sample_db_started).
Proof.
  apply (update_status_accepts_valid_target 125 1 (Some " collected ")
           (Some "picked up ") sample_partner sample_db_started
           sample_booking_started).
  - vm_compute. reflexivity.
  - vm_compute. reflexivity.
  - vm_compute. reflexivity.
Defined.

Lemma get_delivery_partner_spec db pid p :
  get_delivery_partner db pid = Some p
  <-> users db !! pid = Some p /\ User.role p = "delivery_partner".
Proof.
  unfold get_delivery_partner.
  destruct (users db !! pid) as [u|]; [|intuition congruence].
  destruct (String.eqb_spec (User.role u) "delivery_partner");
    intuition congruence.
Qed.

(** C2 as worded fails: a booking that is already started, not pending, is
    assigned all the same; so is one handed to a delivery partner whose
    account is not active. *)
Lemma assign_not_only_while_pending :
  (status_of sample_db_started 1 = Some "started"
   /\ succeeded (AssignBookingView 140 1 (Some "2") (Authenticated sample_admin)
                   sample_db_started).1 = true
   /\ status_of (AssignBookingView 140 1 (Some "2") (Authenticated sample_admin)
                   sample_db_started).2 1 = Some "assigned")
  /\ (User.is_active sample_retired_partner = false
      /\ succeeded (AssignBookingView 105 1 (Some "5") (Authenticated sample_admin)
                      sample_db_pending).1 = true).
Proof. repeat split; vm_compute; reflexivity. Qed.

(** C2, amended.  For a booking that is not delivered or cancelled, pending
    or not, and a request that does not name an inactive delivery partner,
    [AssignBookingView] succeeds exactly when the posted partner id reads as
    a number that resolves to an active account with the delivery-partner
    role; on success it sets that partner and the status assigned, stamps
    [assigned_at] and appends one log entry.  Every failure leaves the
    database as it was: a missing or empty id is answered with the error
    message, an id that is not a number with a server error (the
    [ValueError] is not caught), and a number that does not resolve
    with 404. *)
Theorem assign_booking_spec now booking_id delivery_partner_id u db b :
  bookings db !! booking_id = Some b ->
  User.has_perm u "core.change_booking" = true ->
  terminal (Booking.status b) = false ->
  (forall raw pid p, delivery_partner_id = Some raw ->
                     Py.parse_int raw = Some pid ->
                     get_delivery_partner db pid = Some p ->
                     User.is_active p = true) ->
  exists r db',
    AssignBookingView now booking_id delivery_partner_id (Authenticated u) db
    = (r, db')
    /\ (succeeded r = true
        <-> exists raw pid p,
              delivery_partner_id = Some raw /\ Py.parse_int raw = Some pid
              /\ users db !! pid = Some p
              /\ User.role p = "delivery_partner" /\ User.is_active p = true)
    /\ (succeeded r = true ->
        exists raw pid b' notes,
          delivery_partner_id = Some raw /\ Py.parse_int raw = Some pid
          /\ bookings db' !! booking_id = Some b'
          /\ Booking.delivery_partner_id b' = Some pid
          /\ Booking.status b' = "assigned"
          /\ Booking.assigned_at b' = Some now
          /\ status_logs db'
             = status_logs db
               ++ [BookingStatusLog.Build booking_id "assigned"
                     (Some (User.id u)) notes now])
    /\ (succeeded r = false ->
        db' = db
        /\ r = match delivery_partner_id with
               | None => MessageError "Please select a delivery partner"
               | Some raw =>
                 if String.eqb raw ""
                 then MessageError "Please select a delivery partner"
                 else match Py.parse_int raw with
                      | None => ServerError
                      | Some _ => Http404
                      end
               end).
Proof.
  intros Hb Hp _ Hact.
  unfold AssignBookingView, dispatch. rewrite Hp.
  unfold AssignBookingView_post. rewrite Hb.
  destruct delivery_partner_id as [raw|]; cbn [User.nonempty].
  - destruct (String.eqb_spec raw "") as [->|Hne];
      cbn [negb default from_option id].
    { eexists _, _. split; [reflexivity|]. cbn [succeeded].
      split; [split; [discriminate|]|].
      { intros (raw & pid & p & [= <-] & Hi & _). discriminate Hi. }
      split; [discriminate|done]. }
    destruct (Py.parse_int raw) as [pid|] eqn:Hi.
    + destruct (get_delivery_partner db pid) as [p|] eqn:Hg.
      * eexists _, _. split; [reflexivity|]. cbn [succeeded].
        split; [split; [intros _|reflexivity]|].
        { exists raw, pid, p. apply get_delivery_partner_spec in Hg as Hg'.
          destruct Hg'. eauto 10 using Hact. }
        split; [|discriminate].
        intros _. eexists raw, pid, _, _.
        split; [reflexivity|]. split; [exact Hi|].
        split; [apply lookup_insert_eq|]. repeat split.
      * eexists _, _. split; [reflexivity|]. cbn [succeeded].
        split; [split; [discriminate|]|].
        { intros (raw' & pid' & p & [= <-] & Hi' & Hu & Hr & _).
          assert (get_delivery_partner db pid' = Some p) as Hg'
            by by apply get_delivery_partner_spec.
          congruence. }
        split; [discriminate|done].
    + eexists _, _. split; [reflexivity|]. cbn [succeeded].
      split; [split; [discriminate|]|].
      { intros (raw' & pid' & p & [= <-] & Hi' & _). congruence. }
      split; [discriminate|done].
  - eexists _, _. split; [reflexivity|]. cbn [succeeded].
    split; [split; [discriminate|]|].
    { intros (raw & pid' & p & [=] & _). }
    split; [discriminate|done].
Qed.

Lemma assign_booking_spec_witness :
  exists r db',
    AssignBookingView 110 1 (Some " 2") (Authenticated sample_admin)
      sample_db_pending
    = (r, db')
    /\ (succeeded r = true
        <-> exists raw pid p,
              Some " 2" = Some raw /\ Py.parse_int raw = Some pid
              /\ users sample_db_pending !! pid = Some p
              /\ User.role p = "delivery_partner" /\ User.is_active p = true)
    /\ (succeeded r = true ->
        exists raw pid b' notes,
          Some " 2" = Some raw /\ Py.parse_int raw = Some pid
          /\ bookings db' !! 1 = Some b'
          /\ Booking.delivery_partner_id b' = Some pid
          /\ Booking.status b' = "assigned"
          /\ Booking.assigned_at b' = Some 110
          /\ status_logs db'
             = status_logs sample_db_pending
               ++ [BookingStatusLog.Build 1 "assigned"
                     (Some (User.id sample_admin)) notes 110])
    /\ (succeeded r = false ->
        db' = sample_db_pending
        /\ r = match Some " 2" with
               | None => MessageError "Please select a delivery partner"
               | Some raw =>
                 if String.eqb raw ""
                 then MessageError "Please select a delivery partner"
                 else match Py.parse_int raw with
                      | None => ServerError
                      | Some _ => Http404
                      end
               end).
Proof.
  apply (assign_booking_spec 110 1 (Some " 2") sample_admin sample_db_pending
           sample_booking_pending).
  - vm_compute. reflexivity.
  - vm_compute. reflexivity.
  - vm_compute. reflexivity.
  - intros raw pid p [= <-] Hi H. vm_compute in Hi. injection Hi as <-.
    vm_compute in H. injection H as <-. reflexivity.
Defined.

(** The three ways an assignment fails, on the pending sample booking: no
    usable id, an id that is not a number, a number that names no delivery
    partner (user 1 is a customer).  None of them touches the database. *)
Example assign_failures :
  AssignBookingView 110 1 (Some "") (Authenticated sample_admin) sample_db_pending
  = (MessageError "Please select a delivery partner", sample_db_pending)
  /\ AssignBookingView 110 1 (Some "abc") (Authenticated sample_admin)
       sample_db_pending
     = (ServerError, sample_db_pending)
  /\ AssignBookingView 110 1 (Some "  ") (Authenticated sample_admin)
       sample_db_pending
     = (ServerError, sample_db_pending)
  /\ AssignBookingView 110 1 (Some "9") (Authenticated sample_admin)
       sample_db_pending
     = (Http404, sample_db_pending)
  /\ AssignBookingView 110 1 (Some "1") (Authenticated sample_admin)
       sample_db_pending
     = (Http404, sample_db_pending).
Proof. repeat split. Qed.





(** C1 on the code.  A delivered booking is moved back to started by its
    delivery partner, and a cancelled booking is assigned again by the
    administrator: both requests succeed and overwrite the terminal status.
    Only cancelling is refused on a terminal booking. *)
Lemma terminal_status_overwritten :
  (status_of sample_db_delivered 1 = Some "delivered"
   /\ succeeded (UpdateBookingStatusView 160 1 (Some "started") None
                   (Authenticated sample_partner) sample_db_delivered).1 = true
   /\ status_of (UpdateBookingStatusView 160 1 (Some "started") None
                   (Authenticated sample_partner) sample_db_delivered).2 1
      = Some "started")
  /\ (status_of sample_db_cancelled 1 = Some "cancelled"
      /\ succeeded (AssignBookingView 160 1 (Some "2") (Authenticated sample_admin)
                      sample_db_cancelled).1 = true
      /\ status_of (AssignBookingView 160 1 (Some "2") (Authenticated sample_admin)
                      sample_db_cancelled).2 1 = Some "assigned")
  /\ CancelBookingView 160 1 None (Authenticated sample_customer)
       sample_db_delivered
     = (MessageError "You cannot cancel this booking", sample_db_delivered)
  /\ CancelBookingView 160 1 None (Authenticated sample_customer)
       sample_db_cancelled
     = (MessageError "You cannot cancel this booking", sample_db_cancelled).
Proof. repeat split; vm_compute; reflexivity. Qed.

End BookingFacts.

(** ** Worked examples *)

Example strip_example : Py.strip "  12 34	 " = "12 34".
Proof. reflexivity. Qed.

Example str_int_example : Py.str_int (-12) = "-12" /\ Py.str_int 0 = "0".
Proof. split; reflexivity. Qed.

(** [int()] on posted text: white space around the number, a sign and single
    underscores between digits are read; anything else is refused. *)
Example parse_int_example :
  Py.parse_int "2" = Some 2 /\ Py.parse_int " 007 " = Some 7
  /\ Py.parse_int "+12" = Some 12 /\ Py.parse_int "-3" = Some (-3)
  /\ Py.parse_int "1_0" = Some 10
  /\ Py.parse_int "" = None /\ Py.parse_int "  " = None
  /\ Py.parse_int "abc" = None /\ Py.parse_int "2.0" = None
  /\ Py.parse_int "1 2" = None /\ Py.parse_int "- 3" = None
  /\ Py.parse_int "_1" = None /\ Py.parse_int "1__0" = None
  /\ Py.parse_int "1_" = None.
Proof. repeat split. Qed.

Example random_choices_example :
  OTPManager.random_choices (fun i => (i * 13 + 7)%nat) 4 = "7036".
Proof. reflexivity. Qed.

Example lifecycle_example :
  status_of sample_db_pending 1 = Some "pending"
  /\ status_of sample_db_assigned 1 = Some "assigned"
  /\ bookings sample_db_started !! 1 = Some sample_booking_started
  /\ List.map BookingStatusLog.status (status_logs sample_db_delivered)
     = ["pending"; "assigned"; "started"; "delivered"].
Proof. repeat split; vm_compute; reflexivity. Qed.

Example next_status_example :
  helpers.get_next_booking_status "delivered" = None
  /\ helpers.get_next_booking_status "cancelled" = None
  /\ helpers.get_next_booking_status "pending" = Some "assigned".
Proof. repeat split. Qed.

(** ** More on the OTP manager *)

Section OTPMore.
Import OTPManager.
Implicit Types (c : Cache.t) (m otp : string).

Lemma attempts_key_inj m m' : _get_attempts_key m = _get_attempts_key m' -> m = m'.
Proof. intros H. cbv in H. congruence. Qed.

Lemma verified_key_inj m m' : _get_verified_key m = _get_verified_key m' -> m = m'.
Proof. intros H. cbv in H. congruence. Qed.

Lemma generate_otp_truthy DEBUG draws :
  Py.truthy (Py.PStr (generate_otp DEBUG draws)) = true.
Proof. by destruct DEBUG. Qed.

Lemma create_otp_fresh DEBUG draws now m c :
  from_option Py.truthy false (Cache.get now (_get_otp_key m) c) = false ->
  create_otp DEBUG draws now m c
  = (CreateResult true (Some (generate_otp DEBUG draws))
       "OTP generated successfully" OTP_EXPIRY,
     issued DEBUG draws now m c).
Proof. intros H. unfold create_otp. by rewrite H. Qed.

Lemma issued_get_otp DEBUG draws now t m c :
  Cache.get t (_get_otp_key m) (issued DEBUG draws now m c)
  = if t <=? now + OTP_EXPIRY then Some (Py.PStr (generate_otp DEBUG draws))
    else None.
Proof.
  unfold issued.
  rewrite !get_delete_ne, get_set_eq
    by first [apply not_eq_sym, otp_key_ne_verified
             |apply not_eq_sym, otp_key_ne_attempts].
  done.
Qed.

Lemma issued_get_attempts DEBUG draws now t m c :
  Cache.get t (_get_attempts_key m) (issued DEBUG draws now m c) = None.
Proof.
  unfold issued.
  rewrite get_delete_ne by apply not_eq_sym, attempts_key_ne_verified.
  apply get_delete_eq.
Qed.

Lemma issued_get_verified DEBUG draws now t m c :
  Cache.get t (_get_verified_key m) (issued DEBUG draws now m c) = None.
Proof. unfold issued. apply get_delete_eq. Qed.

Lemma attempts_after_set now t m n c :
  t < now + OTP_EXPIRY ->
  attempts_recorded t m (Cache.set now (_get_attempts_key m) (Py.PInt n) OTP_EXPIRY c)
  = Some n.
Proof.
  intros Ht. unfold attempts_recorded. rewrite get_set_eq.
  by destruct (Z.leb_spec t (now + OTP_EXPIRY)); [|lia].
Qed.

(** X1.  A code issued at [t0] is live through [t0 + 300], the instant of
    expiry included.  Until then a second [create_otp] for the number is
    refused with "OTP already sent", hands out no code, reports the seconds
    left (0 at the last instant) and leaves the cache alone; at any later
    time [create_otp] succeeds again and issues a new code. *)
Theorem create_otp_again DEBUG draws DEBUG' draws' t0 t m c :
  from_option Py.truthy false (Cache.get t0 (_get_otp_key m) c) = false ->
  let c0 := (create_otp DEBUG draws t0 m c).2 in
  create_otp DEBUG' draws' t m c0
  = if t <=? t0 + 300
    then (CreateResult false None
            "OTP already sent. Please wait before requesting a new one."
            (t0 + 300 - t), c0)
    else (CreateResult true (Some (generate_otp DEBUG' draws'))
            "OTP generated successfully" 300,
          issued DEBUG' draws' t m c0).
Proof.
  intros H c0. subst c0. rewrite (create_otp_fresh _ _ _ _ _ H). cbn [snd].
  destruct (Z.leb_spec t (t0 + 300)) as [Ht|Ht].
  - unfold create_otp. rewrite issued_get_otp.
    destruct (Z.leb_spec t (t0 + OTP_EXPIRY)) as [_|Hge];
      [|unfold OTP_EXPIRY in Hge; lia].
    cbn [from_option]. rewrite generate_otp_truthy.
    do 2 f_equal. unfold Cache.ttl, issued, Cache.delete, Cache.set.
    rewrite !lookup_delete_ne, lookup_insert_eq
      by first [apply not_eq_sym, otp_key_ne_verified
               |apply not_eq_sym, otp_key_ne_attempts].
    destruct (Z.leb_spec t (t0 + OTP_EXPIRY)) as [_|Hge];
      unfold OTP_EXPIRY in *; [done|lia].
  - apply create_otp_fresh.
    rewrite issued_get_otp.
    by destruct (Z.leb_spec t (t0 + OTP_EXPIRY)) as [Hlt|_];
      [unfold OTP_EXPIRY in Hlt; lia|].
Qed.

Lemma create_otp_again_witness :
  let c0 := (create_otp true (fun _ => 0%nat) 0 sample_mobile ∅).2 in
  create_otp false (fun _ => 5%nat) 300 sample_mobile c0
  = (if 300 <=? 0 + 300
     then (CreateResult false None
             "OTP already sent. Please wait before requesting a new one."
             (0 + 300 - 300), c0)
     else (CreateResult true (Some (generate_otp false (fun _ => 5%nat)))
             "OTP generated successfully" 300,
           issued false (fun _ => 5%nat) 300 sample_mobile c0))
  /\ create_otp false (fun _ => 5%nat) 301 sample_mobile c0
     = (if 301 <=? 0 + 300
        then (CreateResult false None
                "OTP already sent. Please wait before requesting a new one."
                (0 + 300 - 301), c0)
        else (CreateResult true (Some (generate_otp false (fun _ => 5%nat)))
                "OTP generated successfully" 300,
              issued false (fun _ => 5%nat) 301 sample_mobile c0)).
Proof.
  split.
  - apply (create_otp_again true (fun _ => 0%nat) false (fun _ => 5%nat) 0 300
             sample_mobile ∅).
    vm_compute. reflexivity.
  - apply (create_otp_again true (fun _ => 0%nat) false (fun _ => 5%nat) 0 301
             sample_mobile ∅).
    vm_compute. reflexivity.
Defined.

(** At the last instant of the code, second 300, a new request is still
    refused, with 0 seconds left; one second later it is served. *)
Example create_otp_again_at_expiry :
  let c0 := (create_otp true (fun _ => 0%nat) 0 sample_mobile ∅).2 in
  (create_otp false (fun _ => 5%nat) 300 sample_mobile c0).1
  = CreateResult false None
      "OTP already sent. Please wait before requesting a new one." 0
  /\ (create_otp false (fun _ => 5%nat) 301 sample_mobile c0).1
     = CreateResult true (Some "5555") "OTP generated successfully" 300.
Proof. split; vm_compute; reflexivity. Qed.

(** X2.  A successful [create_otp] starts the number afresh: whatever was
    stored before, the attempts counter reads 0 and the number is not
    verified any more. *)
Theorem create_otp_resets DEBUG draws now m c :
  c_success (create_otp DEBUG draws now m c).1 = true ->
  forall t,
    attempts_recorded t m (create_otp DEBUG draws now m c).2 = Some 0
    /\ is_verified t m (create_otp DEBUG draws now m c).2 = Py.PBool false.
Proof.
  unfold create_otp.
  destruct (from_option _ _ _); [discriminate|]. intros _ t. cbn [snd].
  fold (issued DEBUG draws now m c).
  unfold attempts_recorded, is_verified.
  by rewrite issued_get_attempts, issued_get_verified.
Qed.

Lemma create_otp_resets_witness :
  attempts_recorded 450 sample_mobile
    (create_otp false (fun _ => 9%nat) 400 sample_mobile sample_three_wrong).2
  = Some 0
  /\ is_verified 450 sample_mobile
       (create_otp false (fun _ => 9%nat) 400 sample_mobile sample_three_wrong).2
     = Py.PBool false.
Proof.
  apply (create_otp_resets false (fun _ => 9%nat) 400 sample_mobile sample_three_wrong).
  vm_compute. reflexivity.
Defined.

(** X3.  [verify_otp] answers success only when a code is live for the
    number, fewer than 3 wrong attempts are recorded and the submission
    equals the stored code after trimming both. *)
Theorem verify_otp_success_sound now m otp c r c' :
  verify_otp now m otp c = (Some r, c') ->
  v_success r = true ->
  exists v n,
    Cache.get now (_get_otp_key m) c = Some v
    /\ Py.truthy v = true
    /\ attempts_recorded now m c = Some n /\ n < MAX_ATTEMPTS
    /\ Py.strip otp = Py.strip (Py.str v)
    /\ r = VERIFIED.
Proof.
  unfold verify_otp, attempts_recorded.
  destruct (Cache.get now (_get_otp_key m) c) as [v|];
    [|intros [= <- _]; discriminate].
  destruct (Py.truthy v) eqn:Ht; cbn [negb]; [|intros [= <- _]; discriminate].
  destruct (Py.as_int _) as [n|]; [|discriminate].
  destruct (Z.leb_spec MAX_ATTEMPTS n); [intros [= <- _]; discriminate|].
  destruct (String.eqb_spec (Py.strip otp) (Py.strip (Py.str v)));
    [|intros [= <- _]; discriminate].
  intros [= <- _] _. by exists v, n.
Qed.

Lemma verify_otp_success_sound_witness :
  exists v n,
    Cache.get 7 (_get_otp_key sample_mobile) sample_issued = Some v
    /\ Py.truthy v = true
    /\ attempts_recorded 7 sample_mobile sample_issued = Some n /\ n < MAX_ATTEMPTS
    /\ Py.strip "1234 " = Py.strip (Py.str v)
    /\ VERIFIED = VERIFIED.
Proof.
  apply (verify_otp_success_sound 7 sample_mobile "1234 " sample_issued VERIFIED
           (verify_otp 7 sample_mobile "1234 " sample_issued).2).
  - vm_compute. reflexivity.
  - reflexivity.
Defined.

(** X4.  A wrong submission against a live code with fewer than 3 recorded
    attempts is counted: the answer is a failure that reports
    3 - (attempts + 1) attempts left, the counter is stored one higher with a
    fresh 300 second expiry, and the code and the verified flag stay as they
    were. *)
Theorem verify_otp_mismatch_counted now m otp c v n :
  Cache.get now (_get_otp_key m) c = Some v ->
  Py.truthy v = true ->
  attempts_recorded now m c = Some n ->
  n < MAX_ATTEMPTS ->
  Py.strip otp ≠ Py.strip (Py.str v) ->
  exists r c',
    verify_otp now m otp c = (Some r, c')
    /\ v_success r = false
    /\ v_attempts_left r = 2 - n
    /\ c' !! _get_attempts_key m = Some (Py.PInt (n + 1), now + 300)
    /\ c' !! _get_otp_key m = c !! _get_otp_key m
    /\ c' !! _get_verified_key m = c !! _get_verified_key m.
Proof.
  intros Hv Ht Ha Hn Hne.
  eexists _, _. split; [by apply (verify_otp_wrong_code now m otp c v n)|].
  unfold Cache.set. cbn. repeat split.
  - unfold MAX_ATTEMPTS. lia.
  - apply lookup_insert_eq.
  - apply lookup_insert_ne, not_eq_sym, otp_key_ne_attempts.
  - apply lookup_insert_ne, attempts_key_ne_verified.
Qed.

Lemma verify_otp_mismatch_counted_witness :
  exists r c',
    verify_otp 9 sample_mobile "9999" sample_issued = (Some r, c')
    /\ v_success r = false
    /\ v_attempts_left r = 2 - 0
    /\ c' !! _get_attempts_key sample_mobile = Some (Py.PInt (0 + 1), 9 + 300)
    /\ c' !! _get_otp_key sample_mobile = sample_issued !! _get_otp_key sample_mobile
    /\ c' !! _get_verified_key sample_mobile
       = sample_issued !! _get_verified_key sample_mobile.
Proof.
  apply (verify_otp_mismatch_counted 9 sample_mobile "9999" sample_issued
           (Py.PStr "1234") 0).
  - vm_compute. reflexivity.
  - reflexivity.
  - vm_compute. reflexivity.
  - vm_compute. reflexivity.
  - vm_compute. discriminate.
Defined.

(** X5.  Issue a code, then submit three wrong codes while it is live: the
    three answers count down 2, 1, 0 attempts left, and a fourth submission
    made while the code would still be live is refused with "maximum
    verification attempts exceeded", whatever it is. *)
Theorem three_wrong_then_locked DEBUG draws t0 m c t1 t2 t3 t4 o1 o2 o3 o4 :
  from_option Py.truthy false (Cache.get t0 (_get_otp_key m) c) = false ->
  t0 <= t1 < t0 + 300 -> t0 <= t2 < t0 + 300 ->
  t0 <= t3 < t0 + 300 -> t0 <= t4 < t0 + 300 ->
  Py.strip o1 ≠ Py.strip (generate_otp DEBUG draws) ->
  Py.strip o2 ≠ Py.strip (generate_otp DEBUG draws) ->
  Py.strip o3 ≠ Py.strip (generate_otp DEBUG draws) ->
  (verify_all [(t1, o1); (t2, o2); (t3, o3); (t4, o4)] m
     (create_otp DEBUG draws t0 m c).2).1
  = [Some (INVALID 1); Some (INVALID 2); Some (INVALID 3); Some MAX_EXCEEDED]
  /\ List.map v_attempts_left [INVALID 1; INVALID 2; INVALID 3] = [2; 1; 0].
Proof.
  intros H H1 H2 H3 H4 Hne1 Hne2 Hne3. split; [|reflexivity].
  rewrite (create_otp_fresh _ _ _ _ _ H). cbn [snd verify_all].
  set (code := Py.PStr (generate_otp DEBUG draws)).
  assert (Hlive : forall t c', t < t0 + 300 ->
            Cache.get t (_get_otp_key m) c'
            = Cache.get t (_get_otp_key m) (issued DEBUG draws t0 m c) ->
            Cache.get t (_get_otp_key m) c' = Some code).
  { intros t c' Ht ->. rewrite issued_get_otp.
    by destruct (Z.leb_spec t (t0 + OTP_EXPIRY)) as [_|Hge];
      [|unfold OTP_EXPIRY in Hge; lia]. }
  assert (Hk : _get_attempts_key m ≠ _get_otp_key m)
    by apply not_eq_sym, otp_key_ne_attempts.
  rewrite (verify_otp_wrong_code t1 m o1 _ code 0);
    [|by apply Hlive; [lia|] |apply generate_otp_truthy
     |unfold attempts_recorded; by rewrite issued_get_attempts|done|done].
  rewrite (verify_otp_wrong_code t2 m o2 _ code (0 + 1));
    [|apply Hlive; [lia|by rewrite get_set_ne] |apply generate_otp_truthy
     |apply attempts_after_set; unfold OTP_EXPIRY; lia|done|done].
  rewrite (verify_otp_wrong_code t3 m o3 _ code (0 + 1 + 1));
    [|apply Hlive; [lia|by rewrite !get_set_ne] |apply generate_otp_truthy
     |apply attempts_after_set; unfold OTP_EXPIRY; lia|done|done].
  unfold verify_otp at 1.
  rewrite (Hlive t4) by first [lia | by rewrite !get_set_ne].
  subst code. rewrite generate_otp_truthy. cbn [negb].
  pose proof (attempts_after_set t3 t4 m (0 + 1 + 1 + 1)) as Ha.
  unfold attempts_recorded in Ha. rewrite Ha by (unfold OTP_EXPIRY; lia).
  reflexivity.
Qed.

Lemma three_wrong_then_locked_witness :
  (verify_all [(10, "0000"); (20, "12 34"); (30, "4321"); (40, "1234")] sample_mobile
     (create_otp true (fun _ => 0%nat) 5 sample_mobile ∅).2).1
  = [Some (INVALID 1); Some (INVALID 2); Some (INVALID 3); Some MAX_EXCEEDED]
  /\ List.map v_attempts_left [INVALID 1; INVALID 2; INVALID 3] = [2; 1; 0].
Proof.
  apply (three_wrong_then_locked true (fun _ => 0%nat) 5 sample_mobile ∅
           10 20 30 40 "0000" "12 34" "4321" "1234");
    first [lia | by vm_compute].
Defined.

Lemma keys_of_other m m' k :
  m ≠ m' -> In k (keys_of m') ->
  _get_otp_key m ≠ k /\ _get_attempts_key m ≠ k /\ _get_verified_key m ≠ k.
Proof.
  intros Hne [<-|[<-|[<-|[]]]]; repeat split; intros Heq;
    first [by apply otp_key_inj in Heq
          |by apply attempts_key_inj in Heq
          |by apply verified_key_inj in Heq
          |by apply otp_key_ne_attempts in Heq
          |by apply otp_key_ne_verified in Heq
          |by apply attempts_key_ne_verified in Heq
          |by symmetry in Heq; apply otp_key_ne_attempts in Heq
          |by symmetry in Heq; apply otp_key_ne_verified in Heq
          |by symmetry in Heq; apply attempts_key_ne_verified in Heq].
Qed.

(** X6.  The manager's operations on one mobile number never touch the
    code, attempts or verified entries of another number. *)
Theorem other_numbers_untouched m m' k :
  m ≠ m' -> In k (keys_of m') ->
  forall DEBUG draws now otp (c : Cache.t),
    (create_otp DEBUG draws now m c).2 !! k = c !! k
    /\ (verify_otp now m otp c).2 !! k = c !! k
    /\ clear_verification m c !! k = c !! k.
Proof.
  intros Hne Hk DEBUG draws now otp c.
  destruct (keys_of_other m m' k Hne Hk) as (Ho & Ha & Hv).
  repeat split.
  - unfold create_otp. destruct (from_option _ _ _); [done|]. cbn [snd].
    unfold Cache.delete, Cache.set.
    by rewrite !lookup_delete_ne, lookup_insert_ne.
  - unfold verify_otp.
    destruct (Cache.get now (_get_otp_key m) c) as [v|]; [|done].
    destruct (Py.truthy v); cbn [negb]; [|done].
    destruct (Py.as_int _) as [n|]; [|done].
    unfold Cache.delete, Cache.set.
    destruct (MAX_ATTEMPTS <=? n); cbn [snd].
    { by rewrite !lookup_delete_ne. }
    destruct (String.eqb _ _); cbn [snd].
    + by rewrite !lookup_delete_ne, lookup_insert_ne.
    + by rewrite lookup_insert_ne.
  - unfold clear_verification, Cache.delete. by rewrite lookup_delete_ne.
Qed.

Lemma other_numbers_untouched_witness :
  (create_otp false (fun _ => 2%nat) 4 "+911234567890" sample_three_wrong).2
    !! "otp_attempts:+919999999999"
  = sample_three_wrong !! "otp_attempts:+919999999999"
  /\ (verify_otp 4 "+911234567890" "1234" sample_three_wrong).2
       !! "otp_attempts:+919999999999"
     = sample_three_wrong !! "otp_attempts:+919999999999"
  /\ clear_verification "+911234567890" sample_three_wrong
       !! "otp_attempts:+919999999999"
     = sample_three_wrong !! "otp_attempts:+919999999999".
Proof.
  apply (other_numbers_untouched "+911234567890" "+919999999999"
           "otp_attempts:+919999999999").
  - discriminate.
  - right. left. reflexivity.
Defined.

Lemma verify_otp_verified_inv now m otp c r c' :
  verify_otp now m otp c = (Some r, c') ->
  v_success r = true ->
  c' = Cache.delete (_get_attempts_key m)
         (Cache.delete (_get_otp_key m)
            (Cache.set now (_get_verified_key m) (Py.PBool true) 600 c)).
Proof.
  unfold verify_otp.
  destruct (Cache.get now (_get_otp_key m) c) as [v|];
    [|intros [= <- _]; discriminate].
  destruct (Py.truthy v); cbn [negb]; [|intros [= <- _]; discriminate].
  destruct (Py.as_int _) as [n|]; [|discriminate].
  destruct (MAX_ATTEMPTS <=? n); [intros [= <- _]; discriminate|].
  destruct (String.eqb _ _); [|intros [= <- _]; discriminate].
  by intros [= _ <-].
Qed.

(** X7.  After a successful verification at time [now], [is_verified] is
    True through [now + 600], the instant of expiry included, and False at
    any later time; [clear_verification] makes it False at once. *)
Theorem verified_window now m otp c r c' :
  verify_otp now m otp c = (Some r, c') ->
  v_success r = true ->
  forall t,
    is_verified t m c' = Py.PBool (bool_decide (t <= now + 600))
    /\ is_verified t m (clear_verification m c') = Py.PBool false.
Proof.
  intros H Hs t. rewrite (verify_otp_verified_inv _ _ _ _ _ _ H Hs).
  split.
  - unfold is_verified.
    rewrite !get_delete_ne, get_set_eq
      by first [apply attempts_key_ne_verified | apply otp_key_ne_verified].
    case_bool_decide; destruct (Z.leb_spec t (now + 600)); first [done | lia].
  - unfold is_verified, clear_verification. by rewrite get_delete_eq.
Qed.

Lemma verified_window_witness :
  (is_verified 607 sample_mobile (verify_otp 7 sample_mobile "1234" sample_issued).2
   = Py.PBool (bool_decide (607 <= 7 + 600))
   /\ is_verified 607 sample_mobile
        (clear_verification sample_mobile
           (verify_otp 7 sample_mobile "1234" sample_issued).2)
      = Py.PBool false)
  /\ (is_verified 608 sample_mobile (verify_otp 7 sample_mobile "1234" sample_issued).2
      = Py.PBool (bool_decide (608 <= 7 + 600))
      /\ is_verified 608 sample_mobile
           (clear_verification sample_mobile
              (verify_otp 7 sample_mobile "1234" sample_issued).2)
         = Py.PBool false).
Proof.
  split.
  - apply (verified_window 7 sample_mobile "1234" sample_issued VERIFIED).
    + vm_compute. reflexivity.
    + reflexivity.
  - apply (verified_window 7 sample_mobile "1234" sample_issued VERIFIED).
    + vm_compute. reflexivity.
    + reflexivity.
Defined.

(** Verified at second 7: still True at second 607, False at second 608. *)
Example verified_window_at_expiry :
  is_verified 607 sample_mobile (verify_otp 7 sample_mobile "1234" sample_issued).2
  = Py.PBool true
  /\ is_verified 608 sample_mobile
       (verify_otp 7 sample_mobile "1234" sample_issued).2
     = Py.PBool false.
Proof. split; vm_compute; reflexivity. Qed.

(** X8.  [get_otp_status] after a code was issued at [t0]: through
    [t0 + 300], the instant of expiry included, it reports that a code
    exists, no verification, 0 attempts and the seconds left (0 at the last
    instant); at any later time it reports that none exists and 0 seconds. *)
Theorem otp_status_after_issue DEBUG draws t0 m c t :
  from_option Py.truthy false (Cache.get t0 (_get_otp_key m) c) = false ->
  OTPStatus.get_otp_status t m (create_otp DEBUG draws t0 m c).2
  = if t <=? t0 + 300
    then OTPStatus.Build true (Py.PBool false) (Py.PInt 0) (t0 + 300 - t)
    else OTPStatus.Build false (Py.PBool false) (Py.PInt 0) 0.
Proof.
  intros H. rewrite (create_otp_fresh _ _ _ _ _ H). cbn [snd].
  unfold OTPStatus.get_otp_status, is_verified.
  rewrite issued_get_otp, issued_get_attempts, issued_get_verified.
  unfold Cache.ttl, issued, Cache.delete, Cache.set.
  rewrite !lookup_delete_ne, lookup_insert_eq
    by first [apply not_eq_sym, otp_key_ne_verified
             |apply not_eq_sym, otp_key_ne_attempts].
  change OTP_EXPIRY with 300.
  by destruct (t <=? t0 + 300).
Qed.

Lemma otp_status_after_issue_witness :
  OTPStatus.get_otp_status 300 sample_mobile
    (create_otp true (fun _ => 0%nat) 0 sample_mobile ∅).2
  = (if 300 <=? 0 + 300
     then OTPStatus.Build true (Py.PBool false) (Py.PInt 0) (0 + 300 - 300)
     else OTPStatus.Build false (Py.PBool false) (Py.PInt 0) 0)
  /\ OTPStatus.get_otp_status 301 sample_mobile
       (create_otp true (fun _ => 0%nat) 0 sample_mobile ∅).2
     = (if 301 <=? 0 + 300
        then OTPStatus.Build true (Py.PBool false) (Py.PInt 0) (0 + 300 - 301)
        else OTPStatus.Build false (Py.PBool false) (Py.PInt 0) 0).
Proof.
  split.
  - apply (otp_status_after_issue true (fun _ => 0%nat) 0 sample_mobile ∅ 300).
    vm_compute. reflexivity.
  - apply (otp_status_after_issue true (fun _ => 0%nat) 0 sample_mobile ∅ 301).
    vm_compute. reflexivity.
Defined.

(** Issued at second 0: at second 300 the code is still reported, with 0
    seconds left; at second 301 it is gone. *)
Example otp_status_at_expiry :
  OTPStatus.get_otp_status 300 sample_mobile
    (create_otp true (fun _ => 0%nat) 0 sample_mobile ∅).2
  = OTPStatus.Build true (Py.PBool false) (Py.PInt 0) 0
  /\ OTPStatus.get_otp_status 301 sample_mobile
       (create_otp true (fun _ => 0%nat) 0 sample_mobile ∅).2
     = OTPStatus.Build false (Py.PBool false) (Py.PInt 0) 0.
Proof. split; vm_compute; reflexivity. Qed.

End OTPMore.

(** ** More on the booking views *)

Section BookingMore.
Import views.

Lemma stamp_request_data now s b : request_data (stamp now s b) = request_data b.
Proof. unfold stamp. by repeat destruct (String.eqb _ _). Qed.

(** X9.  Each of the four booking requests either succeeds and appends
    exactly one entry to the status log, for the booking concerned and with
    the status that booking now has, leaving the earlier entries as they
    were, or does not succeed and changes nothing in the database. *)
Theorem status_log_append_only db user now :
  (forall pickup delivery notes,
      logged_once db (CreateBookingView now pickup delivery notes user db)
        (booking_seq db))
  /\ (forall booking_id delivery_partner_id,
        logged_once db (AssignBookingView now booking_id delivery_partner_id user db)
          booking_id)
  /\ (forall booking_id status notes,
        logged_once db (UpdateBookingStatusView now booking_id status notes user db)
          booking_id)
  /\ (forall booking_id reason,
        logged_once db (CancelBookingView now booking_id reason user db) booking_id).
Proof.
  unfold logged_once, status_of.
  repeat split; intros; destruct user as [|u]; cbn; try done;
    destruct (User.has_perm u _); try done.
  - unfold CreateBookingView_post. destruct (_ || _); [done|].
    cbn. eexists. split; [reflexivity|]. by rewrite lookup_insert_eq.
  - unfold AssignBookingView_post.
    destruct (bookings db !! booking_id); [|done].
    destruct (negb (User.nonempty delivery_partner_id)); [done|].
    destruct (Py.parse_int _) as [pid|]; [|done].
    destruct (get_delivery_partner db pid); [|done].
    cbn. eexists. split; [reflexivity|]. by rewrite lookup_insert_eq.
  - unfold UpdateBookingStatusView_post.
    destruct (bookings db !! booking_id); [|done].
    destruct (helpers.can_update_booking_status _ _); [|done].
    destruct (Py.str_in _ _); [|done].
    cbn. eexists. split; [reflexivity|]. rewrite lookup_insert_eq. cbn.
    by rewrite stamp_status.
  - unfold CancelBookingView_post.
    destruct (bookings db !! booking_id); [|done].
    destruct (helpers.can_cancel_booking _ _); [|done].
    cbn. eexists. split; [reflexivity|]. by rewrite lookup_insert_eq.
Qed.

(** X10.  Assigning, updating and cancelling booking [booking_id] never
    touch the user table, the key sequence or any other booking, never remove
    the booking, and never change its customer, addresses, customer notes or
    creation time. *)
Theorem booking_requests_keep_rest db user now booking_id :
  (forall delivery_partner_id,
      keeps_rest db (AssignBookingView now booking_id delivery_partner_id user db).2
        booking_id)
  /\ (forall status notes,
        keeps_rest db (UpdateBookingStatusView now booking_id status notes user db).2
          booking_id)
  /\ (forall reason,
        keeps_rest db (CancelBookingView now booking_id reason user db).2 booking_id).
Proof.
  assert (Hsame : keeps_rest db db booking_id) by done.
  split; [|split]; intros; destruct user as [|u]; cbn; try done;
    destruct (User.has_perm u _); try done.
  - unfold AssignBookingView_post.
    destruct (bookings db !! booking_id) as [b|] eqn:Hb; [|done].
    destruct (negb (User.nonempty delivery_partner_id)); [done|].
    destruct (Py.parse_int _) as [pid|]; [|done].
    destruct (get_delivery_partner db pid); [|done].
    unfold keeps_rest. cbn. split; [done|split; [done|split]].
    + intros id Hne. by rewrite lookup_insert_ne.
    + by rewrite lookup_insert_eq, Hb.
  - unfold UpdateBookingStatusView_post.
    destruct (bookings db !! booking_id) as [b|] eqn:Hb; [|done].
    destruct (helpers.can_update_booking_status _ _); [|done].
    destruct (Py.str_in _ _); [|done].
    unfold keeps_rest. cbn. split; [done|split; [done|split]].
    + intros id Hne. by rewrite lookup_insert_ne.
    + rewrite lookup_insert_eq, Hb. cbn. f_equal.
      change (request_data (Booking.set_updated_at now
                (stamp now (post_field status)
                   (Booking.set_status (post_field status) b))))
        with (request_data (stamp now (post_field status)
                (Booking.set_status (post_field status) b))).
      by rewrite stamp_request_data.
  - unfold CancelBookingView_post.
    destruct (bookings db !! booking_id) as [b|] eqn:Hb; [|done].
    destruct (helpers.can_cancel_booking _ _); [|done].
    unfold keeps_rest. cbn. split; [done|split; [done|split]].
    + intros id Hne. by rewrite lookup_insert_ne.
    + by rewrite lookup_insert_eq, Hb.
Qed.

(** X11.  With every booking's key below the key sequence, creating a
    booking never overwrites an existing one, and all four requests keep the
    keys below the sequence. *)
Theorem ids_below_seq_preserved db user now :
  ids_below_seq db ->
  (forall pickup delivery notes,
      let db' := (CreateBookingView now pickup delivery notes user db).2 in
      ids_below_seq db'
      /\ forall id b, bookings db !! id = Some b -> bookings db' !! id = Some b)
  /\ (forall booking_id delivery_partner_id,
        ids_below_seq
          (AssignBookingView now booking_id delivery_partner_id user db).2)
  /\ (forall booking_id status notes,
        ids_below_seq
          (UpdateBookingStatusView now booking_id status notes user db).2)
  /\ (forall booking_id reason,
        ids_below_seq (CancelBookingView now booking_id reason user db).2).
Proof.
  intros Hinv.
  assert (Hupd : forall id b (b' : Booking.t) db',
             bookings db !! id = Some b ->
             bookings db' = <[id := b']> (bookings db) ->
             booking_seq db' = booking_seq db -> ids_below_seq db').
  { intros id b b' db' Hb Hbs Hseq id' [x Hx]. rewrite Hbs in Hx. rewrite Hseq.
    destruct (decide (id = id')) as [<-|Hne].
    - apply Hinv. by exists b.
    - rewrite lookup_insert_ne in Hx by done. apply Hinv. by exists x. }
  split.
  { intros pickup delivery notes. cbv zeta.
    destruct user as [|u]; cbn; [done|].
    destruct (User.has_perm u _); [|done].
    unfold CreateBookingView_post. destruct (_ || _); [done|]. cbn. split.
    - intros id [x Hx]. cbn in *.
      destruct (decide (booking_seq db = id)) as [<-|Hne]; [lia|].
      rewrite lookup_insert_ne in Hx by done.
      assert (id < booking_seq db) by (apply Hinv; by exists x). lia.
    - intros id b Hb. rewrite lookup_insert_ne; [done|].
      intros <-. assert (booking_seq db < booking_seq db); [|lia].
      apply Hinv. by eexists. }
  split; [|split]; intros; destruct user as [|u]; cbn; try done;
    destruct (User.has_perm u _); try done.
  - unfold AssignBookingView_post.
    destruct (bookings db !! booking_id) as [b|] eqn:Hb; [|done].
    destruct (negb (User.nonempty delivery_partner_id)); [done|].
    destruct (Py.parse_int _) as [pid|]; [|done].
    destruct (get_delivery_partner db pid); [|done].
    by eapply Hupd.
  - unfold UpdateBookingStatusView_post.
    destruct (bookings db !! booking_id) as [b|] eqn:Hb; [|done].
    destruct (helpers.can_update_booking_status _ _); [|done].
    destruct (Py.str_in _ _); [|done].
    by eapply Hupd.
  - unfold CancelBookingView_post.
    destruct (bookings db !! booking_id) as [b|] eqn:Hb; [|done].
    destruct (helpers.can_cancel_booking _ _); [|done].
    by eapply Hupd.
Qed.

Lemma ids_below_seq_preserved_witness :
  (forall pickup delivery notes,
      let db' := (CreateBookingView 200 pickup delivery notes
                    (Authenticated sample_customer) sample_db_started).2 in
      ids_below_seq db'
      /\ forall id b, bookings sample_db_started !! id = Some b ->
                      bookings db' !! id = Some b)
  /\ (forall booking_id delivery_partner_id,
        ids_below_seq
          (AssignBookingView 200 booking_id delivery_partner_id
             (Authenticated sample_customer) sample_db_started).2)
  /\ (forall booking_id status notes,
        ids_below_seq
          (UpdateBookingStatusView 200 booking_id status notes
             (Authenticated sample_customer) sample_db_started).2)
  /\ (forall booking_id reason,
        ids_below_seq
          (CancelBookingView 200 booking_id reason
             (Authenticated sample_customer) sample_db_started).2).
Proof.
  apply (ids_below_seq_preserved sample_db_started (Authenticated sample_customer) 200).
  intros id [b Hb].
  change (bookings sample_db_started)
    with (<[1 := sample_booking_started]> (∅ : gmap Z Booking.t)) in Hb.
  change (booking_seq sample_db_started) with 2.
  apply lookup_insert_Some in Hb as [[<- _]|[_ Hb]]; [lia|].
  by rewrite lookup_empty in Hb.
Defined.

Lemma can_cancel_booking_spec u b :
  helpers.can_cancel_booking (Authenticated u) b = true
  <-> User.role u = "customer" /\ User.id u = Booking.customer_id b
      /\ Booking.status b ≠ "delivered" /\ Booking.status b ≠ "cancelled".
Proof.
  unfold helpers.can_cancel_booking. cbn.
  destruct (String.eqb_spec (User.role u) "customer") as [Hr|Hr]; cbn;
    [|intuition congruence].
  case_bool_decide as Hid; [intuition congruence|].
  assert (User.id u = Booking.customer_id b) as Hid' by congruence.
  destruct (String.eqb_spec (Booking.status b) "delivered") as [Hd|Hd]; cbn;
    [intuition congruence|].
  destruct (String.eqb_spec (Booking.status b) "cancelled") as [Hc|Hc]; cbn;
    intuition congruence.
Qed.

(** X12.  Cancelling an existing booking succeeds exactly for its own
    customer (role customer, holding the change permission) while the booking
    is neither delivered nor cancelled; the booking then becomes cancelled,
    with [cancelled_at] and the trimmed reason set and everything else,
    the delivery partner included, as it was. *)
Theorem cancel_booking_spec now booking_id reason user db b :
  bookings db !! booking_id = Some b ->
  exists r db',
    CancelBookingView now booking_id reason user db = (r, db')
    /\ (succeeded r = true
        <-> exists u,
              user = Authenticated u
              /\ User.has_perm u "core.change_booking" = true
              /\ User.role u = "customer"
              /\ User.id u = Booking.customer_id b
              /\ Booking.status b ≠ "delivered"
              /\ Booking.status b ≠ "cancelled")
    /\ (succeeded r = true ->
        bookings db' !! booking_id
        = Some (Booking.Build (Booking.customer_id b) (Booking.delivery_partner_id b)
                  (Booking.pickup_address b) (Booking.delivery_address b)
                  (Booking.customer_notes b) "cancelled" (Booking.created_at b)
                  now (Booking.assigned_at b) (Booking.started_at b)
                  (Booking.reached_at b) (Booking.collected_at b)
                  (Booking.delivered_at b) (Some now)
                  (Some (post_field reason)))).
Proof.
  intros Hb. unfold CancelBookingView, dispatch.
  destruct user as [|u].
  { eexists _, _. split; [reflexivity|]. cbn.
    split; [|discriminate]. split; [discriminate|]. by intros (u & [=] & _). }
  destruct (User.has_perm u _) eqn:Hp.
  2:{ eexists _, _. split; [reflexivity|]. cbn.
      split; [|discriminate]. split; [discriminate|].
      intros (u' & [= <-] & Hp' & _). congruence. }
  unfold CancelBookingView_post. rewrite Hb.
  destruct (helpers.can_cancel_booking (Authenticated u) b) eqn:Hc; cbn [negb].
  - apply can_cancel_booking_spec in Hc.
    eexists _, _. split; [reflexivity|]. cbn [succeeded].
    split; [split; [intros _; exists u; tauto|done]|].
    intros _. cbn. by rewrite lookup_insert_eq.
  - eexists _, _. split; [reflexivity|]. cbn [succeeded].
    split; [|discriminate]. split; [discriminate|].
    intros (u' & [= <-] & _ & H).
    apply can_cancel_booking_spec in H. congruence.
Qed.

Lemma cancel_booking_spec_witness :
  exists r db',
    CancelBookingView 130 1 (Some " changed my mind ") (Authenticated sample_customer)
      sample_db_started = (r, db')
    /\ (succeeded r = true
        <-> exists u,
              Authenticated sample_customer = Authenticated u
              /\ User.has_perm u "core.change_booking" = true
              /\ User.role u = "customer"
              /\ User.id u = Booking.customer_id sample_booking_started
              /\ Booking.status sample_booking_started ≠ "delivered"
              /\ Booking.status sample_booking_started ≠ "cancelled")
    /\ (succeeded r = true ->
        bookings db' !! 1
        = Some (Booking.Build (Booking.customer_id sample_booking_started)
                  (Booking.delivery_partner_id sample_booking_started)
                  (Booking.pickup_address sample_booking_started)
                  (Booking.delivery_address sample_booking_started)
                  (Booking.customer_notes sample_booking_started) "cancelled"
                  (Booking.created_at sample_booking_started)
                  130 (Booking.assigned_at sample_booking_started)
                  (Booking.started_at sample_booking_started)
                  (Booking.reached_at sample_booking_started)
                  (Booking.collected_at sample_booking_started)
                  (Booking.delivered_at sample_booking_started) (Some 130)
                  (Some (post_field (Some " changed my mind "))))).
Proof.
  apply (cancel_booking_spec 130 1 (Some " changed my mind ")
           (Authenticated sample_customer) sample_db_started sample_booking_started).
  vm_compute. reflexivity.
Defined.

(** X13.  Whoever may cancel a booking or update its status may also look
    at it: [can_cancel_booking] and [can_update_booking_status] each imply
    [can_access_booking]. *)
Theorem may_change_implies_may_access user b :
  helpers.can_cancel_booking user b = true
  \/ helpers.can_update_booking_status user b = true ->
  helpers.can_access_booking user b = true.
Proof.
  unfold helpers.can_cancel_booking, helpers.can_update_booking_status,
    helpers.can_access_booking.
  destruct (helpers.is_admin_user user); [done|].
  destruct (helpers.is_customer user); cbn.
  - destruct (helpers.is_delivery_partner user); cbn;
      repeat case_bool_decide; cbn; intros [Hx|Hx]; done.
  - intros [Hx|Hx]; [done|].
    destruct (helpers.is_delivery_partner user); cbn in *; [|done].
    by case_bool_decide.
Qed.

Lemma may_change_implies_may_access_witness :
  helpers.can_access_booking (Authenticated sample_partner) sample_booking_started
  = true.
Proof.
  apply (may_change_implies_may_access (Authenticated sample_partner)
           sample_booking_started).
  right. vm_compute. reflexivity.
Defined.

(** X14.  [get_next_booking_status] walks the pipeline pending, assigned,
    started, reached, collected, delivered one step at a time and gives no
    successor to delivered or cancelled; apart from assigned, the statuses it
    yields are exactly the ones [UpdateBookingStatusView] accepts. *)
Theorem next_status_pipeline :
  List.map helpers.get_next_booking_status
    ["pending"; "assigned"; "started"; "reached"; "collected"; "delivered";
     "cancelled"]
  = [Some "assigned"; Some "started"; Some "reached"; Some "collected";
     Some "delivered"; None; None]
  /\ (forall s s', helpers.get_next_booking_status s = Some s' ->
                   s ≠ "pending" -> In s' valid_statuses)
  /\ (forall s', In s' valid_statuses ->
                 exists s, helpers.get_next_booking_status s = Some s'
                           /\ terminal s = false)
  /\ (forall s, terminal s = true -> helpers.get_next_booking_status s = None).
Proof.
  split; [reflexivity|]. split; [|split].
  - intros s s'. unfold helpers.get_next_booking_status, valid_statuses.
    destruct (String.eqb_spec s "pending"); [done|].
    repeat (destruct (String.eqb _ _); [intros [= <-] _; cbn; tauto|]).
    done.
  - unfold valid_statuses. cbn.
    intros s' [<-|[<-|[<-|[<-|[]]]]];
      [by exists "assigned"|by exists "started"|by exists "reached"
      |by exists "collected"].
  - intros s Ht. apply str_in_spec in Ht. cbn in Ht.
    by destruct Ht as [<-|[<-|[]]].
Qed.

End BookingMore.

(** ** Trimming *)

Section Strip.

Lemma rev_app_chars s1 s2 :
  list_ascii_of_string (String.rev_app s1 s2)
  = rev_append (list_ascii_of_string s1) (list_ascii_of_string s2).
Proof. revert s2. induction s1 as [|c s1 IH]; intros s2; cbn; [done|]. by rewrite IH. Qed.

Lemma rev_chars s :
  list_ascii_of_string (String.rev s) = rev (list_ascii_of_string s).
Proof. unfold String.rev. rewrite rev_app_chars. cbn. by rewrite rev_append_rev, app_nil_r. Qed.

Lemma lstrip_chars s :
  list_ascii_of_string (Py.lstrip s) = drop_spaces (list_ascii_of_string s).
Proof. induction s as [|c s IH]; cbn; [done|]. by destruct (Py.isspace c). Qed.

Lemma strip_chars s :
  list_ascii_of_string (Py.strip s)
  = rev (drop_spaces (rev (drop_spaces (list_ascii_of_string s)))).
Proof.
  unfold Py.strip, Py.rstrip. by rewrite rev_chars, lstrip_chars, rev_chars, lstrip_chars.
Qed.

Lemma chars_inj s1 s2 :
  list_ascii_of_string s1 = list_ascii_of_string s2 -> s1 = s2.
Proof.
  intros H. rewrite <- (string_of_list_ascii_of_string s1),
    <- (string_of_list_ascii_of_string s2). by rewrite H.
Qed.

Lemma drop_spaces_head l c r : drop_spaces l = c :: r -> Py.isspace c = false.
Proof.
  induction l as [|a l IH]; cbn; [done|].
  destruct (Py.isspace a) eqn:Ha; [done|]. by intros [= <- _].
Qed.

Lemma drop_spaces_nil l : drop_spaces l = [] <-> forallb Py.isspace l = true.
Proof.
  induction l as [|a l IH]; cbn; [done|].
  destruct (Py.isspace a); cbn; [done|]. split; discriminate.
Qed.

Lemma drop_spaces_id c r : Py.isspace c = false -> drop_spaces (c :: r) = c :: r.
Proof. cbn. by intros ->. Qed.

Lemma drop_spaces_snoc l c :
  Py.isspace c = false -> drop_spaces (l ++ [c]) = drop_spaces l ++ [c].
Proof.
  intros Hc. induction l as [|a l IH]; cbn; [by rewrite Hc|].
  by destruct (Py.isspace a).
Qed.

(** The characters of a trimmed string: none, or a run that starts and ends
    with a character that is not white space. *)
Lemma strip_chars_shape s :
  list_ascii_of_string (Py.strip s) = []
  \/ exists c l, drop_spaces (rev (drop_spaces (list_ascii_of_string s))) = c :: l
                 /\ Py.isspace c = false
                 /\ list_ascii_of_string (Py.strip s) = rev l ++ [c].
Proof.
  rewrite strip_chars.
  destruct (drop_spaces (rev _)) as [|c l] eqn:H; [by left|].
  right. exists c, l. split; [done|]. split; [by eapply drop_spaces_head|done].
Qed.

Lemma strip_empty s :
  Py.strip s = "" <-> forallb Py.isspace (list_ascii_of_string s) = true.
Proof.
  split.
  - intros H. apply (f_equal list_ascii_of_string) in H. rewrite strip_chars in H.
    cbn in H. apply (f_equal (@rev _)) in H. rewrite rev_involutive in H. cbn in H.
    apply drop_spaces_nil in H. rewrite forallb_forall in H.
    destruct (drop_spaces (list_ascii_of_string s)) as [|c l] eqn:Hd.
    + by apply drop_spaces_nil.
    + apply drop_spaces_head in Hd as Hc.
      rewrite (H c) in Hc; [done|]. apply in_rev. rewrite rev_involutive. by left.
  - intros H. apply chars_inj. rewrite strip_chars.
    apply drop_spaces_nil in H. by rewrite H.
Qed.

(** A string that starts and ends with characters that are not white space
    is its own trimming. *)
Lemma strip_fixed c l d :
  Py.isspace c = false -> Py.isspace d = false ->
  Py.strip (string_of_list_ascii (c :: l ++ [d])) = string_of_list_ascii (c :: l ++ [d]).
Proof.
  intros Hc Hd. apply chars_inj. rewrite strip_chars.
  rewrite list_ascii_of_string_of_list_ascii.
  rewrite (drop_spaces_id c) by done.
  change (c :: l ++ [d]) with ((c :: l) ++ [d]).
  rewrite rev_app_distr. cbn [rev app]. rewrite (drop_spaces_id d) by done.
  cbn [rev]. rewrite rev_app_distr, rev_involutive. by rewrite <- app_assoc.
Qed.

Lemma strip_single c :
  Py.isspace c = false -> Py.strip (String c "") = String c "".
Proof. intros Hc. unfold Py.strip, Py.rstrip. cbn. rewrite Hc. cbn. by rewrite Hc. Qed.

Lemma all_chars_forallb p s :
  validators.all_chars p s = forallb p (list_ascii_of_string s).
Proof. induction s as [|c s IH]; cbn; [done|]. by rewrite IH. Qed.

Lemma length_chars s : String.length s = length (list_ascii_of_string s).
Proof. induction s as [|c s IH]; cbn; [done|]. by rewrite IH. Qed.

Lemma before_final_newline_chars s b :
  validators.before_final_newline s = Some b ->
  list_ascii_of_string s = list_ascii_of_string b ++ ["010"%char].
Proof.
  revert b. induction s as [|c s IH]; intros b; cbn; [done|].
  destruct s as [|c' s'].
  - destruct (Ascii.eqb_spec c "010"); [|done]. intros [= <-]. by subst.
  - destruct (validators.before_final_newline (String c' s')) as [b'|]; [|done].
    intros [= <-]. specialize (IH b' eq_refl). cbn in IH |- *. by rewrite IH.
Qed.

(** A trimmed string does not end with a line feed. *)
Lemma strip_no_final_newline s : validators.before_final_newline (Py.strip s) = None.
Proof.
  destruct (validators.before_final_newline (Py.strip s)) as [b|] eqn:Hb; [|done].
  apply before_final_newline_chars in Hb.
  destruct (strip_chars_shape s) as [H|(c & l & _ & Hc & H)]; rewrite H in Hb.
  - by destruct (list_ascii_of_string b).
  - apply app_inj_tail in Hb as [_ ->]. done.
Qed.

End Strip.

(** ** The validators *)

Section Validators.
Import validators.

Lemma digit_not_space c : is_digit c = true -> Py.isspace c = false.
Proof.
  unfold is_digit, Py.isspace. generalize (Z.of_nat (nat_of_ascii c)). intros n H.
  apply andb_true_iff in H as [H1 H2].
  apply Z.leb_le in H1. apply Z.leb_le in H2.
  repeat match goal with
         | |- context [(?a <=? ?b)] => destruct (Z.leb_spec a b); try lia
         | |- context [(?a =? ?b)] => destruct (Z.eqb_spec a b); try lia
         end; done.
Qed.

Lemma all_digits_no_final_newline s :
  all_chars is_digit s = true -> before_final_newline s = None.
Proof.
  intros H. destruct (before_final_newline s) as [b|] eqn:Hb; [|done].
  apply before_final_newline_chars in Hb.
  rewrite all_chars_forallb, Hb, forallb_app in H.
  apply andb_true_iff in H as [_ H]. done.
Qed.

Lemma digits_between_spec lo hi s :
  digits_between lo hi s = true
  <-> all_chars is_digit s = true /\ (lo <= String.length s <= hi)%nat.
Proof.
  unfold digits_between. rewrite !andb_true_iff, !Nat.leb_le. tauto.
Qed.

Lemma match_digits_all_digits lo hi d :
  all_chars is_digit d = true -> match_digits lo hi d = digits_between lo hi d.
Proof.
  intros Hd. unfold match_digits. rewrite (all_digits_no_final_newline d Hd).
  apply orb_false_r.
Qed.

Lemma filter_chars_all p s : all_chars p (filter_chars p s) = true.
Proof.
  induction s as [|c s IH]; cbn; [done|].
  destruct (p c) eqn:Hc; cbn; [by rewrite Hc|done].
Qed.

Lemma filter_chars_id p s : all_chars p s = true -> filter_chars p s = s.
Proof.
  induction s as [|c s IH]; cbn; [done|].
  intros H. apply andb_true_iff in H as [-> H]. by rewrite IH.
Qed.

(** X15.  [validate_otp] accepts a submission exactly when, once trimmed, it
    consists of four decimal digits. *)
Theorem validate_otp_spec otp :
  valid (validate_otp otp) = true
  <-> String.length (Py.strip otp) = 4%nat
      /\ all_chars is_digit (Py.strip otp) = true.
Proof.
  unfold validate_otp.
  destruct (String.eqb_spec otp "") as [->|Hne];
    [split; [done|intros [H _]; vm_compute in H; lia]|].
  unfold match_digits. rewrite strip_no_final_newline. cbn [from_option].
  rewrite orb_false_r.
  destruct (digits_between 4 4 (Py.strip otp)) eqn:Hd; cbn.
  - apply digits_between_spec in Hd. split; [intros _|done].
    split; [lia|tauto].
  - split; [done|]. intros [Hl Ha].
    assert (digits_between 4 4 (Py.strip otp) = true); [|congruence].
    apply digits_between_spec. split; [done|lia].
Qed.

Lemma generate_otp_digits DEBUG draws :
  exists a b c d,
    OTPManager.generate_otp DEBUG draws = string_of_list_ascii (a :: [b; c] ++ [d])
    /\ is_digit a = true /\ is_digit b = true /\ is_digit c = true
    /\ is_digit d = true.
Proof.
  assert (Hd : forall n, is_digit (nth (n mod 10) OTPManager.digits "0"%char) = true).
  { intros n. pose proof (nth_digits_is_digit n) as H.
    unfold is_digit. apply andb_true_iff. rewrite !Z.leb_le. lia. }
  destruct DEBUG.
  - by exists "1"%char, "2"%char, "3"%char, "4"%char.
  - eexists _, _, _, _. split; [apply generate_otp_production|]. by rewrite !Hd.
Qed.

(** X16.  Every code the manager issues, the fixed one and the random ones,
    passes [validate_otp], and submitting it while it is live verifies the
    number. *)
Theorem issued_code_accepted DEBUG draws t0 t m (c : Cache.t) :
  from_option Py.truthy false (Cache.get t0 (OTPManager._get_otp_key m) c) = false ->
  t < t0 + 300 ->
  valid (validate_otp (OTPManager.generate_otp DEBUG draws)) = true
  /\ (OTPManager.verify_otp t m (OTPManager.generate_otp DEBUG draws)
        (OTPManager.create_otp DEBUG draws t0 m c).2).1
     = Some OTPManager.VERIFIED.
Proof.
  intros H Ht. split.
  - destruct (generate_otp_digits DEBUG draws) as (a & b & c' & d & -> & Ha & Hb & Hc & Hd).
    apply validate_otp_spec.
    rewrite strip_fixed by by apply digit_not_space.
    cbn. by rewrite Ha, Hb, Hc, Hd.
  - rewrite (create_otp_fresh _ _ _ _ _ H). cbn [snd].
    unfold OTPManager.verify_otp.
    rewrite issued_get_otp, issued_get_attempts.
    destruct (Z.leb_spec t (t0 + OTPManager.OTP_EXPIRY)) as [_|Hge];
      [|unfold OTPManager.OTP_EXPIRY in Hge; lia].
    rewrite generate_otp_truthy. cbn. by rewrite String.eqb_refl.
Qed.

Lemma issued_code_accepted_witness :
  valid (validate_otp (OTPManager.generate_otp false (fun i => (7 * i + 3)%nat))) = true
  /\ (OTPManager.verify_otp 299 sample_mobile
        (OTPManager.generate_otp false (fun i => (7 * i + 3)%nat))
        (OTPManager.create_otp false (fun i => (7 * i + 3)%nat) 0 sample_mobile ∅).2).1
     = Some OTPManager.VERIFIED.
Proof.
  apply (issued_code_accepted false (fun i => (7 * i + 3)%nat) 0 299 sample_mobile ∅).
  - vm_compute. reflexivity.
  - lia.
Defined.

Lemma validate_mobile_number_ok country_code mobile_number :
  m_valid (validate_mobile_number country_code mobile_number) = true ->
  exists full,
    full_number (validate_mobile_number country_code mobile_number) = Some full.
Proof.
  unfold validate_mobile_number.
  destruct (String.eqb _ _); [done|].
  destruct (get_country_code_data country_code); [|done].
  destruct (negb _); [done|]. by eexists.
Qed.

Lemma country_lookup cc c :
  In c COUNTRY_CODES -> code c = cc -> get_country_code_data cc = Some c.
Proof.
  unfold COUNTRY_CODES. intros Hin <-.
  repeat (destruct Hin as [<-|Hin]; [reflexivity|]). destruct Hin.
Qed.

Lemma country_pattern_bounds c :
  In c COUNTRY_CODES -> (8 <= (pattern c).1 /\ (pattern c).2 <= 12)%nat.
Proof.
  unfold COUNTRY_CODES. intros Hin.
  repeat (destruct Hin as [<-|Hin]; [cbn; lia|]). destruct Hin.
Qed.

(** X17.  [validate_mobile_number] looks at the digits of its input only.
    It accepts exactly when the country code is in the table and the number
    of digits is within the bounds of that country; the full number is then
    the country code followed by the digits, 8 to 12 of them, and is absent
    otherwise; spaces, dashes and other characters make no difference. *)
Theorem validate_mobile_number_spec country_code mobile_number :
  let d := filter_chars is_digit mobile_number in
  let r := validate_mobile_number country_code mobile_number in
  (m_valid r = true
   <-> exists c, In c COUNTRY_CODES /\ code c = country_code
                 /\ ((pattern c).1 <= String.length d <= (pattern c).2)%nat)
  /\ (m_valid r = true ->
      full_number r = Some (country_code +:+ d)
      /\ all_chars is_digit d = true
      /\ (8 <= String.length d <= 12)%nat)
  /\ (m_valid r = false -> full_number r = None)
  /\ validate_mobile_number country_code d = r.
Proof.
  intros d r. subst r. unfold validate_mobile_number.
  rewrite (filter_chars_id is_digit d) by apply filter_chars_all.
  fold d. assert (Hd : all_chars is_digit d = true) by apply filter_chars_all.
  assert (Hlookup : forall c, In c COUNTRY_CODES -> code c = country_code ->
                              get_country_code_data country_code = Some c)
    by apply country_lookup.
  destruct (String.eqb_spec d "") as [He|He].
  { cbn [m_valid full_number].
    split; [split; [discriminate|]|split; [discriminate|done]].
    intros (c & Hin & _ & Hl).
    apply country_pattern_bounds in Hin. rewrite He in Hl. cbn in Hl. lia. }
  destruct (get_country_code_data country_code) as [c|] eqn:Hc.
  2:{ cbn [m_valid full_number].
      split; [split; [discriminate|]|split; [discriminate|done]].
      intros (c' & Hin' & Hcode' & _). by specialize (Hlookup _ Hin' Hcode'). }
  apply find_some in Hc as Hc'. destruct Hc' as [Hin Hcode].
  apply String.eqb_eq in Hcode.
  rewrite (match_digits_all_digits _ _ d Hd).
  destruct (digits_between _ _ d) eqn:Hb; cbn [negb m_valid full_number].
  - apply digits_between_spec in Hb.
    pose proof (country_pattern_bounds _ Hin).
    split; [split; [intros _; exists c; tauto|done]|].
    split; [|done]. intros _. split; [done|]. split; [done|lia].
  - split; [split; [discriminate|]|split; [discriminate|done]].
    intros (c' & Hin' & Hcode' & Hl).
    specialize (Hlookup _ Hin' Hcode'). injection Hlookup as ->.
    assert (digits_between (pattern c').1 (pattern c').2 d = true); [|congruence].
    by apply digits_between_spec.
Qed.

(** X18.  [validate_name] accepts a name exactly when, once trimmed, it has
    2 to 150 characters, 150 included, all of them letters a-z or A-Z, white
    space, hyphens or apostrophes. *)
Theorem validate_name_spec name field_name :
  valid (validate_name name field_name) = true
  <-> (2 <= String.length (Py.strip name) <= 150)%nat
      /\ all_chars is_name_char (Py.strip name) = true.
Proof.
  unfold validate_name.
  destruct (String.eqb_spec name "") as [->|_]; [cbn; split; [done|lia]|].
  destruct (Nat.ltb_spec (String.length (Py.strip name)) 2); [cbn; split; [done|lia]|].
  destruct (Nat.ltb_spec 150 (String.length (Py.strip name)));
    [cbn; split; [done|lia]|].
  destruct (String.eqb_spec (Py.strip name) "") as [He|_].
  { rewrite He in *. cbn in *. lia. }
  cbn [negb andb].
  destruct (all_chars is_name_char (Py.strip name)); cbn; [|by split; [|intros []]].
  split; [intros _; split; [lia|done]|done].
Qed.

End Validators.

Section CreateBooking.
Import views.

Lemma post_field_blank raw : post_field raw = "" <-> blank raw = true.
Proof. unfold post_field, blank. apply strip_empty. Qed.

(** X19.  For a user holding the add permission, [CreateBookingView]
    succeeds exactly when neither address is missing or made of white space
    only; it then stores, under the next key, a pending booking of that user
    with the trimmed addresses and notes, no delivery partner and no
    transition timestamp, and moves the key sequence on by one. *)
Theorem create_booking_spec now pickup delivery notes u db :
  User.has_perm u "core.add_booking" = true ->
  exists r db',
    CreateBookingView now pickup delivery notes (Authenticated u) db = (r, db')
    /\ (succeeded r = true <-> blank pickup = false /\ blank delivery = false)
    /\ (succeeded r = true ->
        bookings db' !! booking_seq db
        = Some (Booking.Build (User.id u) None (post_field pickup)
                  (post_field delivery) (Some (post_field notes)) "pending"
                  now now None None None None None None None)
        /\ booking_seq db' = booking_seq db + 1)
    /\ (succeeded r = false ->
        r = MessageError "Please provide both pickup and delivery addresses").
Proof.
  intros Hp. unfold CreateBookingView, dispatch. rewrite Hp.
  unfold CreateBookingView_post.
  pose proof (post_field_blank pickup) as H1.
  pose proof (post_field_blank delivery) as H2.
  destruct (String.eqb_spec (post_field pickup) "") as [E1|E1];
    destruct (String.eqb_spec (post_field delivery) "") as [E2|E2]; cbn [orb].
  4:{ eexists _, _. split; [reflexivity|]. cbn [succeeded].
      split; [split; [intros _|done]|].
      { split; [destruct (blank pickup)|destruct (blank delivery)]; tauto. }
      split; [|done]. intros _. cbn. by rewrite lookup_insert_eq. }
  all: eexists _, _; (split; [reflexivity|]); cbn [succeeded];
    (split; [split; [done|]|split; [done|done]]).
  - intros [Hb _]. apply H1 in E1. congruence.
  - intros [Hb _]. apply H1 in E1. congruence.
  - intros [_ Hb]. apply H2 in E2. congruence.
Qed.

Lemma create_booking_spec_witness :
  exists r db',
    CreateBookingView 100 (Some "12 Hill Road") (Some " 4 Lake View ") None
      (Authenticated sample_customer) sample_db_empty = (r, db')
    /\ (succeeded r = true
        <-> blank (Some "12 Hill Road") = false /\ blank (Some " 4 Lake View ") = false)
    /\ (succeeded r = true ->
        bookings db' !! booking_seq sample_db_empty
        = Some (Booking.Build (User.id sample_customer) None
                  (post_field (Some "12 Hill Road"))
                  (post_field (Some " 4 Lake View ")) (Some (post_field None))
                  "pending" 100 100 None None None None None None None)
        /\ booking_seq db' = booking_seq sample_db_empty + 1)
    /\ (succeeded r = false ->
        r = MessageError "Please provide both pickup and delivery addresses").
Proof.
  apply (create_booking_spec 100 (Some "12 Hill Road") (Some " 4 Lake View ") None
           sample_customer sample_db_empty).
  vm_compute. reflexivity.
Defined.

End CreateBooking.

(** ** Chat *)

Section Chat.
Import views chat consumers.

Lemma can_chat_true b :
  Booking.can_chat b = true
  <-> Booking.delivery_partner_id b ≠ None
      /\ In (Booking.status b) ["assigned"; "started"; "reached"; "collected"].
Proof.
  unfold Booking.can_chat. by rewrite andb_true_iff, bool_decide_eq_true, str_in_spec.
Qed.

(** X20.  A [ChatView] shows the chat room of an existing booking exactly
    when the user may access the booking, a delivery partner is assigned, the
    status is assigned, started, reached or collected, and the user holds the
    permission to view chat messages. *)
Theorem chat_view_spec side booking_id user db c b :
  bookings db !! booking_id = Some b ->
  (exists room c', ChatView side booking_id user db c = (Page room, c'))
  <-> helpers.can_access_booking user b = true
      /\ Booking.delivery_partner_id b ≠ None
      /\ In (Booking.status b) ["assigned"; "started"; "reached"; "collected"]
      /\ exists u, user = Authenticated u
                   /\ User.has_perm u "core.view_chatmessage" = true.
Proof.
  intros Hb. unfold ChatView. rewrite Hb.
  pose proof (can_chat_true b) as Hcc.
  destruct (helpers.can_access_booking user b); cbn [negb];
    [|split; [by intros (? & ? & ?)|by intros [? _]]].
  destruct (Booking.can_chat b); cbn [negb].
  2:{ split; [by intros (? & ? & ?)|]. intros (_ & Hd & Hs & _).
      assert (false = true) by (by apply Hcc). done. }
  destruct Hcc as [Hcc _]. destruct (Hcc eq_refl) as [Hd Hs].
  unfold dispatch_get. destruct user as [|u].
  { split; [by intros (? & ? & ?)|by intros (_ & _ & _ & ? & ? & _)]. }
  destruct (User.has_perm u _) eqn:Hp.
  - split; [intros _|intros _; by eexists _, _].
    split; [done|]. split; [done|]. split; [done|]. by exists u.
  - split; [by intros (? & ? & ?)|].
    intros (_ & _ & _ & u' & [= <-] & Hp'). congruence.
Qed.

Lemma chat_view_spec_witness :
  (exists room c',
      ChatView customer_app 1 (Authenticated sample_other_customer) sample_db_started
        (BuildChatDB [] 1) = (Page room, c'))
  <-> helpers.can_access_booking (Authenticated sample_other_customer)
        sample_booking_started = true
      /\ Booking.delivery_partner_id sample_booking_started ≠ None
      /\ In (Booking.status sample_booking_started)
           ["assigned"; "started"; "reached"; "collected"]
      /\ exists u, Authenticated sample_other_customer = Authenticated u
                   /\ User.has_perm u "core.view_chatmessage" = true.
Proof.
  apply (chat_view_spec customer_app 1 (Authenticated sample_other_customer)
           sample_db_started (BuildChatDB [] 1) sample_booking_started).
  vm_compute. reflexivity.
Defined.

Lemma mark_read_unread_zero bid uid c :
  unread_count bid uid (mark_read bid uid c) = 0%nat.
Proof.
  unfold unread_count, mark_read. cbn.
  induction (chat_messages c) as [|m l IH]; cbn; [done|].
  destruct (unread_for bid uid m) eqn:Hm.
  - unfold unread_for in *. cbn. by rewrite andb_false_r.
  - by rewrite Hm.
Qed.

Lemma unread_for_marked bid uid bid' uid' m :
  (bid', uid') ≠ (bid, uid) -> unread_for bid uid m = true ->
  unread_for bid' uid' (ChatMessage.set_is_read true m) = false
  /\ unread_for bid' uid' m = false.
Proof.
  unfold unread_for. cbn. intros Hne H.
  apply andb_true_iff in H as [H _]. apply andb_true_iff in H as [H1 H2].
  apply Z.eqb_eq in H1. apply Z.eqb_eq in H2. rewrite H1, H2.
  destruct (Z.eqb_spec bid bid'); destruct (Z.eqb_spec uid uid'); cbn;
    try done. congruence.
Qed.

Lemma mark_read_unread_other bid uid bid' uid' c :
  (bid', uid') ≠ (bid, uid) ->
  unread_count bid' uid' (mark_read bid uid c) = unread_count bid' uid' c.
Proof.
  intros Hne. unfold unread_count, mark_read. cbn.
  induction (chat_messages c) as [|m l IH]; cbn; [done|].
  destruct (unread_for bid uid m) eqn:Hm.
  - destruct (unread_for_marked _ _ _ _ _ Hne Hm) as [-> ->]. done.
  - destruct (unread_for bid' uid' m); cbn; by rewrite IH.
Qed.

Lemma mark_read_only_flags bid uid c :
  List.map (ChatMessage.set_is_read true) (chat_messages (mark_read bid uid c))
  = List.map (ChatMessage.set_is_read true) (chat_messages c)
  /\ chat_seq (mark_read bid uid c) = chat_seq c.
Proof.
  split; [|done]. unfold mark_read. cbn.
  induction (chat_messages c) as [|m l IH]; cbn; [done|].
  rewrite IH. by destruct (unread_for bid uid m).
Qed.

Lemma mark_read_keeps_read bid uid c :
  Forall2 (fun m m' => ChatMessage.is_read m = true -> ChatMessage.is_read m' = true)
    (chat_messages c) (chat_messages (mark_read bid uid c)).
Proof.
  unfold mark_read. cbn.
  induction (chat_messages c) as [|m l IH]; cbn; constructor; [|done].
  by destruct (unread_for bid uid m).
Qed.

(** X21.  When a [ChatView] shows the room, the viewer has no unread
    message left in that booking; the unread counts of every other booking and
    of every other user are what they were; no message is added, removed or
    changed apart from its read flag, and no read flag is taken back. *)
Theorem chat_view_marks_read side booking_id u db c room c' :
  ChatView side booking_id (Authenticated u) db c = (Page room, c') ->
  unread_count booking_id (User.id u) c' = 0%nat
  /\ (forall bid uid, (bid, uid) ≠ (booking_id, User.id u) ->
                      unread_count bid uid c' = unread_count bid uid c)
  /\ List.map (ChatMessage.set_is_read true) (chat_messages c')
     = List.map (ChatMessage.set_is_read true) (chat_messages c)
  /\ Forall2 (fun m m' => ChatMessage.is_read m = true ->
                          ChatMessage.is_read m' = true)
       (chat_messages c) (chat_messages c')
  /\ room_messages room = booking_messages booking_id c'.
Proof.
  unfold ChatView.
  destruct (bookings db !! booking_id) as [b|]; [|done].
  destruct (helpers.can_access_booking _ _); [|done].
  destruct (Booking.can_chat b); [|done]. cbn.
  destruct (User.has_perm u _); [|done].
  intros [= <- <-]. cbn.
  split; [apply mark_read_unread_zero|].
  split; [intros; by apply mark_read_unread_other|].
  split; [apply mark_read_only_flags|].
  split; [apply mark_read_keeps_read|done].
Qed.

Lemma chat_view_marks_read_witness :
  let c' := (ChatView customer_app 1 (Authenticated sample_chat_customer)
               sample_db_started sample_chat).2 in
  let room := ChatRoom (booking_messages 1 c') (Some 2) in
  unread_count 1 (User.id sample_chat_customer) c' = 0%nat
  /\ (forall bid uid, (bid, uid) ≠ (1, User.id sample_chat_customer) ->
                      unread_count bid uid c' = unread_count bid uid sample_chat)
  /\ List.map (ChatMessage.set_is_read true) (chat_messages c')
     = List.map (ChatMessage.set_is_read true) (chat_messages sample_chat)
  /\ Forall2 (fun m m' => ChatMessage.is_read m = true ->
                          ChatMessage.is_read m' = true)
       (chat_messages sample_chat) (chat_messages c')
  /\ room_messages room = booking_messages 1 c'.
Proof.
  apply (chat_view_marks_read customer_app 1 sample_chat_customer sample_db_started
           sample_chat).
  vm_compute. reflexivity.
Defined.

(** X22.  The customer's booking page offers cancelling exactly when the
    cancel request of that user would be accepted: for a user holding the
    change permission, the [can_cancel] flag of the page equals the outcome of
    [CancelBookingView]. *)
Theorem cancel_offered_iff_accepted booking_id u db c d c' :
  ViewBookingView customer_app booking_id (Authenticated u) db c = (Page d, c') ->
  User.has_perm u "core.change_booking" = true ->
  forall now reason,
    succeeded (CancelBookingView now booking_id reason (Authenticated u) db).1
    = may_change d.
Proof.
  unfold ViewBookingView.
  destruct (bookings db !! booking_id) as [b|] eqn:Hb; [|done].
  destruct (helpers.can_access_booking _ _); [|done]. cbn.
  destruct (User.has_perm u "core.view_booking"); [|done].
  intros [= <- _] Hp now reason. cbn.
  rewrite Hp. unfold CancelBookingView_post. rewrite Hb.
  by destruct (helpers.can_cancel_booking _ _).
Qed.

Lemma cancel_offered_iff_accepted_witness :
    succeeded (CancelBookingView 140 1 (Some "too late")
                 (Authenticated sample_chat_customer) sample_db_started).1
    = may_change
        (BookingDetail sample_booking_started
           (rev (status_logs sample_db_started))
           (booking_messages 1
              (mark_read 1 (User.id sample_chat_customer) sample_chat))
           true).
Proof.
  apply (cancel_offered_iff_accepted 1 sample_chat_customer sample_db_started sample_chat
           _ (mark_read 1 (User.id sample_chat_customer) sample_chat)).
  - vm_compute. reflexivity.
  - vm_compute. reflexivity.
Defined.

(** X23.  The delivery partner's booking page offers the status update
    exactly when an update request of that user to one of the four valid
    statuses would be accepted. *)
Theorem update_offered_iff_accepted booking_id u db c d c' :
  ViewBookingView delivery_partner_app booking_id (Authenticated u) db c
  = (Page d, c') ->
  User.has_perm u "core.change_booking" = true ->
  forall now target notes,
    In target valid_statuses ->
    succeeded (UpdateBookingStatusView now booking_id (Some target) notes
                 (Authenticated u) db).1
    = may_change d.
Proof.
  unfold ViewBookingView.
  destruct (bookings db !! booking_id) as [b|] eqn:Hb; [|done].
  destruct (helpers.can_access_booking _ _); [|done]. cbn.
  destruct (User.has_perm u "core.view_booking"); [|done].
  intros [= <- _] Hp now target notes Hin. cbn.
  rewrite Hp. unfold UpdateBookingStatusView_post. rewrite Hb.
  destruct (helpers.can_update_booking_status _ _); [|done]. cbn [negb].
  assert (post_field (Some target) = target) as ->.
  { pose proof Hin as Hin'. unfold valid_statuses in Hin'. cbn in Hin'.
    by destruct Hin' as [<-|[<-|[<-|[<-|[]]]]]. }
  apply (str_in_spec target valid_statuses) in Hin. by rewrite Hin.
Qed.

Lemma update_offered_iff_accepted_witness :
    succeeded (UpdateBookingStatusView 140 1 (Some "reached") None
                 (Authenticated sample_chat_partner) sample_db_started).1
    = may_change
        (BookingDetail sample_booking_started
           (rev (status_logs sample_db_started))
           (booking_messages 1 (mark_read 1 (User.id sample_chat_partner) sample_chat))
           true).
Proof.
  apply (update_offered_iff_accepted 1 sample_chat_partner sample_db_started sample_chat
           _ (mark_read 1 (User.id sample_chat_partner) sample_chat)).
  - vm_compute. reflexivity.
  - vm_compute. reflexivity.
  - right. left. reflexivity.
Defined.

(** X24.  Whoever may access a booking through the views and is not a
    superuser may also open its chat socket: [can_access_booking] implies
    [verify_booking_access]. *)
Theorem access_implies_socket_access u booking_id db b :
  bookings db !! booking_id = Some b ->
  User.is_superuser u = false ->
  helpers.can_access_booking (Authenticated u) b = true ->
  verify_booking_access u booking_id db = true.
Proof.
  intros Hb Hs. unfold helpers.can_access_booking, verify_booking_access.
  rewrite Hb. cbn. rewrite Hs, orb_false_r.
  destruct (String.eqb (User.role u) "admin"); [by destruct (_ || _)|].
  destruct (String.eqb (User.role u) "customer"); cbn.
  - case_bool_decide as H1.
    + injection H1 as ->. by rewrite Z.eqb_refl.
    + destruct (String.eqb (User.role u) "delivery_partner"); cbn; [|done].
      case_bool_decide as H2; [|done]. intros _. rewrite H2.
      rewrite bool_decide_true by done. by rewrite orb_true_r.
  - destruct (String.eqb (User.role u) "delivery_partner"); cbn; [|done].
    case_bool_decide as H2; [|done]. intros _. rewrite H2.
    rewrite bool_decide_true by done. by rewrite orb_true_r.
Qed.

Lemma access_implies_socket_access_witness :
  verify_booking_access sample_partner 1 sample_db_started = true.
Proof.
  apply (access_implies_socket_access sample_partner 1 sample_db_started
           sample_booking_started).
  - vm_compute. reflexivity.
  - reflexivity.
  - vm_compute. reflexivity.
Defined.

(** X25.  [receive] never broadcasts without having stored the message
    first.  Either it hands no event to the room and leaves the message table
    as it was, or it appends exactly one unread row under the next key and
    the event carries that key, the same text, untrimmed, and the sender; the
    text is then not blank, and the receiver is the delivery partner when the
    sender is the customer of the booking and the customer otherwise. *)
Theorem receive_stores_then_broadcasts now u booking_id message db c :
  match receive now u booking_id message db c with
  | (None, c') => c' = c
  | (Some e, c') =>
    exists m b r,
      chat_messages c' = chat_messages c ++ [m]
      /\ chat_seq c' = chat_seq c + 1
      /\ m = ChatMessage.Build (chat_seq c) booking_id (User.id u) (User.id r)
               message false now
      /\ e = Event message (User.id u) (User.get_full_name u) now (chat_seq c)
      /\ blank (Some message) = false
      /\ bookings db !! booking_id = Some b
      /\ users db !! (if User.id u =? Booking.customer_id b
                      then default 0 (Booking.delivery_partner_id b)
                      else Booking.customer_id b) = Some r
      /\ (User.id u = Booking.customer_id b -> Booking.delivery_partner_id b ≠ None)
  end.
Proof.
  unfold receive.
  destruct (String.eqb_spec (Py.strip message) "") as [He|He]; [done|].
  assert (blank (Some message) = false) as Hblank.
  { destruct (blank (Some message)) eqn:Hb; [|done].
    apply (post_field_blank (Some message)) in Hb. done. }
  unfold save_message.
  destruct (bookings db !! booking_id) as [b|] eqn:Hb; [|done].
  destruct (User.id u =? Booking.customer_id b) eqn:Hid.
  - destruct (Booking.delivery_partner_id b) as [p|] eqn:Hp; cbn; [|done].
    destruct (users db !! p) as [r|] eqn:Hr; [|done].
    exists (ChatMessage.Build (chat_seq c) booking_id (User.id u) (User.id r)
              message false now), b, r.
    rewrite Hid, Hp. cbn. by repeat split.
  - destruct (users db !! Booking.customer_id b) as [r|] eqn:Hr; [|done].
    exists (ChatMessage.Build (chat_seq c) booking_id (User.id u) (User.id r)
              message false now), b, r.
    rewrite Hid. repeat split; try done.
    intros Heq. apply Z.eqb_neq in Hid. done.
Qed.

(** X26.  The chat socket does not look at the status of the booking: on a
    booking whose chat the views have closed ([can_chat] false) but which
    keeps its delivery partner, the customer is refused by [ChatView] with
    "Chat is not available for this booking", yet is let in by
    [verify_booking_access], and a message sent over the socket is stored and
    broadcast. *)
Theorem socket_open_after_chat_closed now u booking_id message db c b p partner :
  bookings db !! booking_id = Some b ->
  Booking.can_chat b = false ->
  helpers.is_customer (Authenticated u) = true ->
  User.id u = Booking.customer_id b ->
  Booking.delivery_partner_id b = Some p ->
  users db !! p = Some partner ->
  blank (Some message) = false ->
  ChatView customer_app booking_id (Authenticated u) db c
  = (Refused (MessageError "Chat is not available for this booking"), c)
  /\ verify_booking_access u booking_id db = true
  /\ exists e c', receive now u booking_id message db c = (Some e, c')
                  /\ e_message e = message
                  /\ length (chat_messages c') = S (length (chat_messages c)).
Proof.
  intros Hb Hc Hcust Hid Hp Hpartner Hblank. split; [|split].
  - unfold ChatView. rewrite Hb, Hc.
    unfold helpers.can_access_booking.
    destruct (helpers.is_admin_user _); [done|].
    rewrite Hcust. cbn. rewrite Hid. by rewrite bool_decide_true.
  - unfold verify_booking_access. rewrite Hb, Hid. by rewrite Z.eqb_refl.
  - unfold receive, save_message.
    destruct (String.eqb_spec (Py.strip message) "") as [He|He].
    { apply (post_field_blank (Some message)) in He. congruence. }
    rewrite Hb, Hid, Z.eqb_refl, Hp. cbn. rewrite Hpartner.
    eexists _, _. split; [reflexivity|]. split; [done|].
    cbn. by rewrite length_app, Nat.add_1_r.
Qed.

Lemma socket_open_after_chat_closed_witness :
  ChatView customer_app 1 (Authenticated sample_chat_customer) sample_db_delivered
    sample_chat
  = (Refused (MessageError "Chat is not available for this booking"), sample_chat)
  /\ verify_booking_access sample_chat_customer 1 sample_db_delivered = true
  /\ exists e c', receive 200 sample_chat_customer 1 "Thanks!" sample_db_delivered
                    sample_chat = (Some e, c')
                  /\ e_message e = "Thanks!"
                  /\ length (chat_messages c') = S (length (chat_messages sample_chat)).
Proof.
  apply (socket_open_after_chat_closed 200 sample_chat_customer 1 "Thanks!"
           sample_db_delivered sample_chat
           (Booking.Build 1 (Some 2) "12 Hill Road" "4 Lake View" (Some "")
              "delivered" 100 150 (Some 110) (Some 120) None None (Some 150)
              None None)
           2 sample_partner);
    vm_compute; reflexivity.
Defined.

Lemma unread_count_snoc bid uid msgs seq m :
  unread_count bid uid (BuildChatDB (msgs ++ [m]) seq)
  = (unread_count bid uid (BuildChatDB msgs seq)
     + if unread_for bid uid m then 1 else 0)%nat.
Proof.
  unfold unread_count. cbn [chat_messages].
  rewrite List.filter_app, length_app. cbn [List.filter].
  by destruct (unread_for bid uid m).
Qed.

Lemma unread_for_new seq booking_id sender receiver message now bid uid :
  unread_for bid uid
    (ChatMessage.Build seq booking_id sender receiver message false now)
  = bool_decide ((bid, uid) = (booking_id, receiver)).
Proof.
  unfold unread_for. cbn.
  case_bool_decide as H.
  - injection H as -> ->. by rewrite !Z.eqb_refl.
  - destruct (Z.eqb_spec booking_id bid); destruct (Z.eqb_spec receiver uid);
      cbn; congruence.
Qed.

(** X27.  The message that [receive] stores, the row whose key the event
    carries, is addressed to the other participant of the booking: to its
    delivery partner when the sender is the booking's customer, to its
    customer otherwise.  It counts as one more unread message of that
    receiver in that booking, and changes no other unread count. *)
Theorem receive_adds_unread now u booking_id message db c e c' :
  receive now u booking_id message db c = (Some e, c') ->
  exists m b pid r,
    chat_messages c' = chat_messages c ++ [m]
    /\ ChatMessage.id m = e_message_id e
    /\ ChatMessage.booking_id m = booking_id
    /\ ChatMessage.sender_id m = User.id u
    /\ bookings db !! booking_id = Some b
    /\ (if User.id u =? Booking.customer_id b
        then Booking.delivery_partner_id b
        else Some (Booking.customer_id b)) = Some pid
    /\ users db !! pid = Some r
    /\ ChatMessage.receiver_id m = User.id r
    /\ unread_count booking_id (ChatMessage.receiver_id m) c'
       = S (unread_count booking_id (ChatMessage.receiver_id m) c)
    /\ forall bid uid, (bid, uid) ≠ (booking_id, ChatMessage.receiver_id m) ->
                       unread_count bid uid c' = unread_count bid uid c.
Proof.
  unfold receive.
  destruct (String.eqb (Py.strip message) ""); [done|].
  unfold save_message.
  destruct (bookings db !! booking_id) as [b|] eqn:Hb; [|done].
  assert (Hcount : forall r : User.t,
    let m := ChatMessage.Build (chat_seq c) booking_id (User.id u) (User.id r)
               message false now in
    let c' := BuildChatDB (chat_messages c ++ [m]) (chat_seq c + 1) in
    unread_count booking_id (User.id r) c'
    = S (unread_count booking_id (User.id r) c)
    /\ forall bid uid, (bid, uid) ≠ (booking_id, User.id r) ->
                       unread_count bid uid c' = unread_count bid uid c).
  { intros r m c0. subst m c0. split; [|intros bid uid Hne];
      rewrite unread_count_snoc, unread_for_new; case_bool_decide; try done;
      unfold unread_count; cbn [chat_messages]; lia. }
  destruct (User.id u =? Booking.customer_id b) eqn:Hid.
  - destruct (Booking.delivery_partner_id b) as [p|] eqn:Hp; cbn [mbind option_bind];
      [|done].
    destruct (users db !! p) as [r|] eqn:Hr; [|done].
    intros [= <- <-]. destruct (Hcount r) as [H1 H2].
    exists (ChatMessage.Build (chat_seq c) booking_id (User.id u) (User.id r)
              message false now), b, p, r.
    rewrite Hid, Hp. repeat split; first [done | exact H1 | exact H2].
  - destruct (users db !! Booking.customer_id b) as [r|] eqn:Hr; [|done].
    intros [= <- <-]. destruct (Hcount r) as [H1 H2].
    exists (ChatMessage.Build (chat_seq c) booking_id (User.id u) (User.id r)
              message false now), b, (Booking.customer_id b), r.
    rewrite Hid. repeat split; first [done | exact H1 | exact H2].
Qed.

Lemma receive_adds_unread_witness :
  let c' :=
    (receive 128 sample_partner 1 "Two minutes" sample_db_started sample_chat).2 in
  exists m b pid r,
    chat_messages c' = chat_messages sample_chat ++ [m]
    /\ ChatMessage.id m
       = e_message_id (Event "Two minutes" 2 "+912222222222" 128 3)
    /\ ChatMessage.booking_id m = 1
    /\ ChatMessage.sender_id m = User.id sample_partner
    /\ bookings sample_db_started !! 1 = Some b
    /\ (if User.id sample_partner =? Booking.customer_id b
        then Booking.delivery_partner_id b
        else Some (Booking.customer_id b)) = Some pid
    /\ users sample_db_started !! pid = Some r
    /\ ChatMessage.receiver_id m = User.id r
    /\ unread_count 1 (ChatMessage.receiver_id m) c'
       = S (unread_count 1 (ChatMessage.receiver_id m) sample_chat)
    /\ forall bid uid, (bid, uid) ≠ (1, ChatMessage.receiver_id m) ->
                       unread_count bid uid c' = unread_count bid uid sample_chat.
Proof.
  apply (receive_adds_unread 128 sample_partner 1 "Two minutes" sample_db_started
           sample_chat
           (Event "Two minutes" 2 "+912222222222" 128 3)).
  vm_compute. reflexivity.
Defined.

(** The partner of booking 1 writes: the row goes to the customer, user 1,
    whose unread count in the booking rises from 1 to 2, while the partner's
    own count stays. *)
Example receive_adds_unread_example :
  let c' :=
    (receive 128 sample_partner 1 "Two minutes" sample_db_started sample_chat).2 in
  ChatMessage.receiver_id <$> last (chat_messages c') = Some 1
  /\ unread_count 1 1 sample_chat = 1%nat /\ unread_count 1 1 c' = 2%nat
  /\ unread_count 1 2 c' = unread_count 1 2 sample_chat.
Proof. repeat split; vm_compute; reflexivity. Qed.

End Chat.

(** ** Sanitizing *)

Section Sanitize.
Import sanitizer.

Example sanitize_examples :
  sanitize_input "  <b>12</b>34 " = "1234"
  /\ sanitize_input "<script>alert(1)</script>x" = "alert(1)x"
  /\ re_sub script_match "a<SCRIPT src=x>alert(1)</Script>b" = "ab"
  /\ sanitize_input "a < b" = "a < b"
  /\ sanitize_input "<b> 12" = " 12".
Proof. repeat split; vm_compute; reflexivity. Qed.

Lemma has_gt_cons c s :
  has_gt (String c s) = Ascii.eqb c ">" || has_gt s.
Proof.
  unfold has_gt. cbn [index_gt]. destruct (Ascii.eqb c ">"); cbn [orb].
  - by apply bool_decide_eq_true.
  - apply bool_decide_ext. by destruct (index_gt s).
Qed.

Lemma sub_go_no_gt f k s : has_gt s = false -> has_gt (sub_go f k s) = false.
Proof.
  revert k. induction s as [|c s IH]; intros k; cbn; [done|].
  rewrite has_gt_cons. intros H. apply orb_false_iff in H as [Hc Hs].
  destruct k as [|k]; [|by apply IH].
  destruct (f (String c s)) as [[|n]|]; try (rewrite has_gt_cons, Hc; by apply IH).
  by apply IH.
Qed.

Lemma sub_go_tag_no_tag k s : no_tag (sub_go tag_match k s) = true.
Proof.
  revert k. induction s as [|c s IH]; intros k; cbn [sub_go]; [done|].
  destruct k as [|k]; [|apply IH].
  unfold tag_match.
  destruct (Ascii.eqb c "<") eqn:Hc.
  - destruct (index_gt s) as [i|] eqn:Hi; cbn.
    + replace (i + 2)%nat with (S (S i)) by lia. apply IH.
    + rewrite Hc, IH. cbn. rewrite sub_go_no_gt; [done|].
      unfold has_gt. rewrite Hi. apply bool_decide_eq_false. intros H. by apply H.
  - cbn. by rewrite Hc, IH.
Qed.

Lemma starts_with_script s :
  starts_with_ci "<script" s = true ->
  exists s', s = String "<" s' /\ index_gt (drop_chars 7 s) = index_gt (drop_chars 6 s').
Proof.
  destruct s as [|c s']; cbn; [done|]. intros H.
  apply andb_true_iff in H as [Hc _].
  exists s'. split; [|done]. f_equal.
  apply Ascii.eqb_eq in Hc. unfold validators.lower_char in Hc.
  destruct (_ || _) eqn:Hup; [|done].
  exfalso. revert Hup Hc. generalize (nat_of_ascii c). intros n Hup Hc.
  apply (f_equal nat_of_ascii) in Hc. change (nat_of_ascii "<") with 60%nat in Hc.
  assert (n < 223)%nat.
  { repeat (apply orb_true_iff in Hup as [Hup|Hup]);
      apply andb_true_iff in Hup as [_ Hup]; apply Nat.leb_le in Hup; lia. }
  rewrite nat_ascii_embedding in Hc by lia.
  repeat (apply orb_true_iff in Hup as [Hup|Hup]);
    apply andb_true_iff in Hup as [Hup _]; apply Nat.leb_le in Hup; lia.
Qed.

Lemma drop_chars_no_gt n s : has_gt s = false -> has_gt (drop_chars n s) = false.
Proof.
  revert s. induction n as [|n IH]; intros [|c s]; cbn; try done.
  rewrite has_gt_cons. intros H. apply orb_false_iff in H as [_ H]. by apply IH.
Qed.

Lemma script_match_needs_tag c s :
  (negb (Ascii.eqb c "<") || negb (has_gt s)) = true ->
  script_match (String c s) = None.
Proof.
  intros H. unfold script_match.
  destruct (starts_with_ci "<script" (String c s)) eqn:Hs; [|done].
  apply starts_with_script in Hs as (s' & [= -> <-] & ->).
  cbn in H.
  assert (has_gt (drop_chars 6 s) = false) as Hd
    by (apply drop_chars_no_gt; by destruct (has_gt s)).
  unfold has_gt in Hd. destruct (index_gt (drop_chars 6 s)); [|done].
  apply bool_decide_eq_false in Hd. by destruct Hd.
Qed.

Lemma re_sub_script_id s : no_tag s = true -> re_sub script_match s = s.
Proof.
  unfold re_sub. induction s as [|c s IH]; cbn [sub_go no_tag]; [done|].
  intros H. apply andb_true_iff in H as [Hc Hs].
  rewrite (script_match_needs_tag c s Hc). by rewrite IH.
Qed.

Lemma has_gt_app s1 s2 : has_gt (s1 +:+ ">" +:+ s2) = true.
Proof.
  induction s1 as [|c s1 IH]; [done|].
  change (String c s1 +:+ ">" +:+ s2) with (String c (s1 +:+ ">" +:+ s2)).
  by rewrite has_gt_cons, IH, orb_true_r.
Qed.

Lemma no_tag_spec s s1 s2 s3 :
  no_tag s = true -> s ≠ s1 +:+ "<" +:+ s2 +:+ ">" +:+ s3.
Proof.
  revert s. induction s1 as [|c s1 IH]; intros s Hs Heq; subst s.
  - change ("" +:+ "<" +:+ s2 +:+ ">" +:+ s3)
      with (String "<" (s2 +:+ ">" +:+ s3)) in Hs.
    cbn [no_tag] in Hs. rewrite has_gt_app in Hs. done.
  - change (String c s1 +:+ "<" +:+ s2 +:+ ">" +:+ s3)
      with (String c (s1 +:+ "<" +:+ s2 +:+ ">" +:+ s3)) in Hs.
    cbn [no_tag] in Hs. apply andb_true_iff in Hs as [_ Hs].
    by apply (IH _ Hs).
Qed.

(** X28.  [sanitize_input] leaves no complete tag: in its result no [<] is
    followed, anywhere behind it, by a [>].  The result is what stripping the
    white space and the first substitution give; the second substitution, for
    script elements, finds nothing left to remove. *)
Theorem sanitize_input_no_tag value :
  sanitize_input value = re_sub tag_match (Py.strip value)
  /\ forall s1 s2 s3, sanitize_input value ≠ s1 +:+ "<" +:+ s2 +:+ ">" +:+ s3.
Proof.
  assert (H : sanitize_input value = re_sub tag_match (Py.strip value)).
  { unfold sanitize_input. destruct (String.eqb_spec value "") as [->|_]; [done|].
    apply re_sub_script_id, sub_go_tag_no_tag. }
  split; [done|]. intros s1 s2 s3. apply no_tag_spec. rewrite H.
  apply sub_go_tag_no_tag.
Qed.

End Sanitize.

(** ** Logging in *)

Section Login.
Import auth.

Lemma get_user_found db m u :
  get_user db m = Found u ->
  User.mobile_number u = m /\ exists k, users db !! k = Some u.
Proof.
  unfold get_user.
  destruct (List.filter _ _) as [|u' [|? ?]] eqn:Hf; try done.
  intros [= ->].
  assert (In u (List.filter (fun u => String.eqb (User.mobile_number u) m)
                  (map_to_list (users db)).*2)) as Hin by (rewrite Hf; by left).
  apply filter_In in Hin as [Hin Hm]. apply String.eqb_eq in Hm. split; [done|].
  apply list_elem_of_In, list_elem_of_fmap in Hin as ([k v] & -> & Hkv).
  apply elem_of_map_to_list in Hkv. by exists k.
Qed.

(** X29.  The login view sends a code, or reports that it did, only for a
    well-formed number that belongs to an account and has no live code: in
    every other case the cache is left as it was and the answer is an error. *)
Theorem send_otp_only_for_accounts DEBUG draws now country_code mobile_number role
    db (cache : Cache.t) r cache' :
  handle_send_otp DEBUG draws now country_code mobile_number role db cache
  = (r, cache') ->
  cache' ≠ cache \/ (exists flash context, r = Render success flash context) ->
  exists full_number u,
    validators.full_number
      (validators.validate_mobile_number country_code mobile_number)
    = Some full_number
    /\ get_user db full_number = Found u
    /\ User.mobile_number u = full_number
    /\ from_option Py.truthy false
         (Cache.get now (OTPManager._get_otp_key full_number) cache) = false
    /\ cache' = issued DEBUG draws now full_number cache
    /\ Cache.get now (OTPManager._get_otp_key full_number) cache'
       = Some (Py.PStr (OTPManager.generate_otp DEBUG draws)).
Proof.
  unfold handle_send_otp.
  pose proof (validate_mobile_number_ok country_code mobile_number) as Hv.
  destruct (validators.m_valid _).
  2:{ intros [= <- <-] [H|(? & ? & H)]; done. }
  destruct (Hv eq_refl) as [full Hfull]. rewrite Hfull.
  cbn [negb default from_option id].
  destruct (get_user db full) as [u| |] eqn:Hu.
  2,3: intros [= <- <-] [H|(? & ? & H)]; done.
  unfold OTPManager.create_otp.
  destruct (from_option _ _ _) eqn:Hlive; cbn.
  { intros [= <- <-] [H|(? & ? & H)]; done. }
  intros [= <- <-] _. exists full, u.
  apply get_user_found in Hu as Hm. destruct Hm as [Hm _].
  repeat split; try done.
  fold (issued DEBUG draws now full cache). rewrite issued_get_otp.
  by destruct (Z.leb_spec now (now + OTPManager.OTP_EXPIRY)) as [_|Hge];
    [|unfold OTPManager.OTP_EXPIRY in Hge; lia].
Qed.

Lemma send_otp_only_for_accounts_witness :
  exists full_number u,
    validators.full_number (validators.validate_mobile_number "+91" "11111 11111")
    = Some full_number
    /\ get_user sample_db_started full_number = Found u
    /\ User.mobile_number u = full_number
    /\ from_option Py.truthy false
         (Cache.get 50 (OTPManager._get_otp_key full_number) ∅) = false
    /\ (handle_send_otp false (fun i => (i + 4)%nat) 50 "+91" "11111 11111"
          "customer" sample_db_started ∅).2
       = issued false (fun i => (i + 4)%nat) 50 full_number ∅
    /\ Cache.get 50 (OTPManager._get_otp_key full_number)
         (handle_send_otp false (fun i => (i + 4)%nat) 50 "+91" "11111 11111"
            "customer" sample_db_started ∅).2
       = Some (Py.PStr (OTPManager.generate_otp false (fun i => (i + 4)%nat))).
Proof.
  apply (send_otp_only_for_accounts false (fun i => (i + 4)%nat) 50 "+91"
           "11111 11111" "customer" sample_db_started ∅
           (Render success "OTP sent to +911111111111. Use 1234 to login."
              [("step", "verify_otp"); ("mobile_number", "+911111111111");
               ("role", "customer"); ("selected_country_code", "+91")])).
  - vm_compute. reflexivity.
  - right. by eexists _, _.
Defined.

Lemma verify_otp_success_inv now m otp (c : Cache.t) r c' :
  OTPManager.verify_otp now m otp c = (Some r, c') ->
  OTPManager.v_success r = true ->
  (exists v, Cache.get now (OTPManager._get_otp_key m) c = Some v
             /\ Py.strip otp = Py.strip (Py.str v))
  /\ c' !! OTPManager._get_otp_key m = None.
Proof.
  intros H Hs. split.
  - revert H. unfold OTPManager.verify_otp.
    destruct (Cache.get now (OTPManager._get_otp_key m) c) as [v|];
      [|intros [= <- _]; discriminate].
    destruct (Py.truthy v); cbn [negb]; [|intros [= <- _]; discriminate].
    destruct (Py.as_int _) as [n|]; [|discriminate].
    destruct (OTPManager.MAX_ATTEMPTS <=? n); [intros [= <- _]; discriminate|].
    destruct (String.eqb_spec (Py.strip otp) (Py.strip (Py.str v)));
      [|intros [= <- _]; discriminate].
    intros _. by exists v.
  - rewrite (verify_otp_verified_inv _ _ _ _ _ _ H Hs).
    unfold Cache.delete.
    rewrite lookup_delete_ne by (apply not_eq_sym, otp_key_ne_attempts).
    apply lookup_delete_eq.
Qed.

(** X30.  The login view logs a user in only when the submitted code is
    well formed and equals, after trimming, the live code of the posted
    number, and the user is the account with that number; the code is then
    used up and the login is written to the activity log.  In every other
    case nothing is written to the database, and a malformed code does not
    even reach the OTP manager: the cache stays as it was, no attempt is
    counted. *)
Theorem login_only_with_verified_code now mobile_number otp role country_code db
    (cache : Cache.t) :
  match handle_verify_otp now mobile_number otp role country_code db cache with
  | (RedirectDashboard _ u, cache', db') =>
    User.mobile_number u = mobile_number
    /\ (exists k, users db !! k = Some u)
    /\ validators.valid (validators.validate_otp otp) = true
    /\ (exists v, Cache.get now (OTPManager._get_otp_key mobile_number) cache = Some v
                  /\ Py.strip otp = Py.strip (Py.str v))
    /\ cache' !! OTPManager._get_otp_key mobile_number = None
    /\ db' = helpers.log_activity now (Authenticated u) "Login" "User logged in" db
  | (_, cache', db') =>
    db' = db
    /\ (validators.valid (validators.validate_otp otp) = false -> cache' = cache)
  end.
Proof.
  unfold handle_verify_otp.
  destruct (validators.valid (validators.validate_otp otp)); cbn [negb]; [|done].
  destruct (OTPManager.verify_otp now mobile_number otp cache) as [[r|] c'] eqn:Hv;
    [|done].
  destruct (OTPManager.v_success r) eqn:Hs; [|done].
  destruct (verify_otp_success_inv _ _ _ _ _ _ Hv Hs) as [Hcode Hgone].
  destruct (get_user db mobile_number) as [u| |] eqn:Hu; [|done|done].
  apply get_user_found in Hu as [Hm Hk]. by repeat split.
Qed.

End Login.
